(** * wtd_shares: query parameters, history loading and the ATR columns

    A shallow embedding of [wtd_shares/utils.py] and [wtd_shares/settings.py].

    - Python exceptions are an error monad ([Py.result]).
    - A pandas frame ([Frame]) is a row index together with named columns,
      kept in insertion order.  A column ([Column]) has a dtype, [int64] or
      [float64], and one cell per row; a cell is [option Q], where [None] is
      the missing marker (NaN).  The frames here are frames of numbers:
      a column of [str] cells, on which the subtraction of line 100 raises
      a TypeError, is not among them.
    - int64 arithmetic is modelled with its wrap-around.  float64 values are
      exact rationals: the development is about which cells are defined and
      which formula fills them, not about the rounding of binary floating
      point.
    - A [datetime] is its proleptic Gregorian ordinal (as [toordinal()] gives
      it) and its time of day. *)

From Stdlib Require Import QArith Qabs Qminmax Qround Lqa Ascii String.
From stdpp Require Import gmap strings list.

Local Open Scope string_scope.

(** ** Python exceptions and results *)

Module Py.

Inductive exn : Type :=
| KeyError (key : string)
| ValueError (msg : string)
| TypeError (msg : string)
| OverflowError (msg : string).

(** The class name of an exception, as [type(e).__name__] gives it. *)
Definition exn_kind (e : exn) : string :=
  match e with
  | KeyError _ => "KeyError"
  | ValueError _ => "ValueError"
  | TypeError _ => "TypeError"
  | OverflowError _ => "OverflowError"
  end.

Inductive result (A : Type) : Type :=
| Ok (a : A)
| Raise (e : exn).
Arguments Ok {A} a.
Arguments Raise {A} e.

Definition bind {A B : Type} (r : result A) (k : A -> result B) : result B :=
  match r with
  | Ok a => k a
  | Raise e => Raise e
  end.

(** A value a Python variable of this development can hold where the code
    allows [None]: a [str] or [None]. *)
Inductive strval : Type :=
| PyStr (s : string)
| PyNone.

End Py.

Import Py.

Notation "'let*' x ':=' r 'in' k" := (Py.bind r (fun x => k))
  (at level 10, x name, r at level 100, k at level 200).

(** ** Parsed JSON: what [json.loads] returns *)

Module Json.

#[warnings="-register-all"]
Inductive value : Type :=
| Null
| Bool (b : bool)
| Num (n : Q)
| Str (s : string)
| List (l : list value)
| Dict (d : list (string * value)).

Fixpoint lookup (key : string) (d : list (string * value)) : option value :=
  match d with
  | [] => None
  | (k, v) :: rest => if decide (k = key) then Some v else lookup key rest
  end.

(** [data[key]] with a [str] key: only a [dict] can answer, and only for
    a key it holds. *)
Definition getitem (data : value) (key : string) : result value :=
  match data with
  | Dict d =>
      match lookup key d with
      | Some v => Ok v
      | None => Raise (KeyError key)
      end
  | List _ => Raise (TypeError "list indices must be integers or slices, not str")
  | Str _ => Raise (TypeError "string indices must be integers")
  | Null | Bool _ | Num _ => Raise (TypeError "object is not subscriptable")
  end.

(** [json.dumps(v)] is a [str].  Nothing below reads its characters, so
    the text is kept as the value it writes out. *)
Inductive text : Type :=
| dumps (v : value).

End Json.

(** ** The part of pandas the code uses *)

Module Pandas.

(** A cell holds a number or is missing; a series is a list of cells. *)
Abbreviation cell := (option Q).
Abbreviation Series := (list (option Q)).

(** The dtype of a column of numbers: parsed JSON integers give [int64],
    anything with a fraction or a missing cell gives [float64]. *)
Inductive dtype : Type := int64 | float64.

(** A column as [df[name]] returns it: the dtype and the cells. *)
Record Column : Type := mkColumn {
  dtype_of : dtype;
  cells : Series
}.

(** Arithmetic on float64 cells: a missing operand gives a missing
    result. *)
Definition cell_sub (x y : cell) : cell :=
  match x, y with
  | Some p, Some q => Some (p - q)%Q
  | _, _ => None
  end.

Definition cell_add (x y : cell) : cell :=
  match x, y with
  | Some p, Some q => Some (p + q)%Q
  | _, _ => None
  end.

Definition cell_div (x y : cell) : cell :=
  match x, y with
  | Some p, Some q => Some (p / q)%Q
  | _, _ => None
  end.

Definition cell_abs (x : cell) : cell :=
  match x with
  | Some p => Some (Qabs p)
  | None => None
  end.

(** int64 arithmetic wraps around silently: what an int64 holds when the
    exact result of an operation is [z]. *)
Definition wrap64 (z : Z) : Z := ((z + 2 ^ 63) mod 2 ^ 64 - 2 ^ 63)%Z.

(** The same on the cell of an int64 column, whose value is an integer. *)
Definition cell_wrap64 (x : cell) : cell :=
  match x with
  | Some p => Some (inject_Z (wrap64 (Qfloor p)))
  | None => None
  end.

(** The reduction step of [max(axis=1)], whose [skipna] is [True] unless
    told otherwise: a missing cell is skipped, it does not poison the row. *)
Definition cell_max_skipna (x y : cell) : cell :=
  match x, y with
  | Some p, Some q => Some (Qmax p q)
  | Some p, None => Some p
  | None, _ => y
  end.

(** The cells of [a - b] for two float64 series of one frame (same index,
    no realignment). *)
Definition series_sub (a b : Series) : Series := zip_with cell_sub a b.

(** The cells of [abs(s)] for a float64 series. *)
Definition series_abs (s : Series) : Series := cell_abs <$> s.

(** The cells of [s.shift(1)]: every value moves one row down, the first
    row becomes missing and the last value drops out; the length is kept. *)
Definition shift1 (s : Series) : Series := take (length s) (None :: s).

(** [a - b]: two int64 columns are subtracted in int64, with wrap-around;
    any other pair is subtracted in float64. *)
Definition col_sub (a b : Column) : Column :=
  match dtype_of a, dtype_of b with
  | int64, int64 =>
      mkColumn int64 (cell_wrap64 <$> series_sub (cells a) (cells b))
  | _, _ => mkColumn float64 (series_sub (cells a) (cells b))
  end.

(** [abs(a)] keeps the dtype. *)
Definition col_abs (a : Column) : Column :=
  match dtype_of a with
  | int64 => mkColumn int64 (cell_wrap64 <$> series_abs (cells a))
  | float64 => mkColumn float64 (series_abs (cells a))
  end.

(** [a.shift(1)]: the missing first cell makes the result float64. *)
Definition col_shift1 (a : Column) : Column := mkColumn float64 (shift1 (cells a)).

Record Frame : Type := mkFrame {
  index : list string;
  columns : list (string * Column)
}.

(** Every column has one cell per row. *)
Definition wf_frame (df : Frame) : Prop :=
  Forall (fun c => length (cells c.2) = length (index df)) (columns df).

Fixpoint assoc (name : string) (cols : list (string * Column)) : option Column :=
  match cols with
  | [] => None
  | (n, c) :: rest => if decide (n = name) then Some c else assoc name rest
  end.

(** [cols[name] = c] on the column list: replace in place, else append. *)
Fixpoint assign (name : string) (c : Column) (cols : list (string * Column))
  : list (string * Column) :=
  match cols with
  | [] => [(name, c)]
  | (n, c0) :: rest =>
      if decide (n = name) then (n, c) :: rest else (n, c0) :: assign name c rest
  end.

(** [df[name]]. *)
Definition getcol (df : Frame) (name : string) : result Column :=
  match assoc name (columns df) with
  | Some c => Ok c
  | None => Raise (KeyError name)
  end.

(** The cells of [df[name]]. *)
Definition getitem (df : Frame) (name : string) : result Series :=
  let* c := getcol df name in Ok (cells c).

(** [df[name] = c]. *)
Definition setcol (df : Frame) (name : string) (c : Column) : Frame :=
  mkFrame (index df) (assign name c (columns df)).

(** [df[name] = s] for a float64 series with the cells [s]. *)
Definition setitem (df : Frame) (name : string) (s : Series) : Frame :=
  setcol df name (mkColumn float64 s).

(** [df[[n1, n2, ...]]]: the frame of the listed columns, in the listed
    order. *)
Fixpoint select (df : Frame) (names : list string)
  : result (list (string * Column)) :=
  match names with
  | [] => Ok []
  | n :: rest =>
      let* c := getcol df n in
      let* cols := select df rest in
      Ok ((n, c) :: cols)
  end.

Definition getitems (df : Frame) (names : list string) : result Frame :=
  let* cols := select df names in
  Ok (mkFrame (index df) cols).

(** The cell of a column at a row position; missing when the column is
    too short. *)
Definition at_row (i : nat) (s : Series) : cell := mjoin (s !! i).

(** The cells of [df.max(axis=1)]: one value per row, the maximum over the
    columns of the cells that are not missing; missing when all are. *)
Definition max_axis1 (df : Frame) : Series :=
  (fun i =>
     foldr cell_max_skipna None (at_row i <$> (cells <$> (columns df).*2)))
    <$> seq 0 (length (index df)).

Definition is_int64 (c : Column) : bool :=
  match dtype_of c with
  | int64 => true
  | float64 => false
  end.

(** The dtype that holds the values of all columns of a frame: int64 when
    every column is, float64 as soon as one column is. *)
Definition common_dtype (df : Frame) : dtype :=
  match columns df with
  | [] => float64
  | cols => if forallb is_int64 cols.*2 then int64 else float64
  end.

(** [df.max(axis=1)]. *)
Definition col_max_axis1 (df : Frame) : Column :=
  mkColumn (common_dtype df) (max_axis1 df).

(** [s[start:stop]] for positions inside the series. *)
Definition slice (start stop : nat) (s : Series) : Series :=
  take (stop - start) (drop start s).

(** The rows a fixed window of [w] sees at row [i]: rows [i+1-w .. i],
    cut at the start of the series. *)
Definition window (w : nat) (s : Series) (i : nat) : Series :=
  slice (i + 1 - w) (i + 1) s.

(** The cells of [s.rolling(w).apply(func)]: [min_periods] is the window
    size; [func] runs on a window only when it holds at least that many
    values that are not missing, any other row is missing. *)
Definition rolling_apply (w : nat) (func : Series -> cell) (s : Series) : Series :=
  (fun i =>
     let win := window w s i in
     if decide (w <= length (omap id win)) then func win else None)
    <$> seq 0 (length s).

(** [c.rolling(w).apply(func)]: rolling windows work in float64. *)
Definition col_rolling_apply (w : nat) (func : Series -> cell) (c : Column)
  : Column :=
  mkColumn float64 (rolling_apply w func (cells c)).

(** The builtin [sum]: start from 0 and add from the left. *)
Definition py_sum (x : Series) : cell := foldl cell_add (Some 0%Q) x.

(** *** Building a frame *)

(** [DataFrame(data)] for a [str], with no index and no columns given: the
    one way the code calls the constructor.  A [str] is a scalar to it, not
    a table, and is refused whatever it holds. *)
Definition DataFrame (data : Json.text) : result Frame :=
  Raise (ValueError "DataFrame constructor not properly called!").

(** [df.transpose()]: the column labels become the row index, in column
    order, and the row labels become the columns, all of the one dtype
    that holds every value. *)
Definition transpose (df : Frame) : Frame :=
  mkFrame (columns df).*1
    (imap (fun i r =>
             (r, mkColumn (common_dtype df)
                   (at_row i <$> (cells <$> (columns df).*2))))
          (index df)).

End Pandas.

Import Pandas.

(** ** The calculator: utils.py lines 98-116 *)

Definition atr_columns (df : Frame) : result Frame :=
  let* high := getcol df "high" in
  let* low := getcol df "low" in
  let df := setcol df "TH-TL" (col_sub high low) in
  let* high := getcol df "high" in
  let* low := getcol df "low" in
  let df := setcol df "TH-YC" (col_abs (col_sub high (col_shift1 low))) in
  let* low := getcol df "low" in
  let* close := getcol df "close" in
  let df := setcol df "TL-YC" (col_abs (col_sub low (col_shift1 close))) in
  let* sub := getitems df ["TH-TL"; "TL-YC"] in
  let df := setcol df "True Range" (col_max_axis1 sub) in
  let* tr := getcol df "True Range" in
  let df :=
    setcol df "ATR (sma)"
      (col_rolling_apply 14 (fun x => cell_div (py_sum x) (Some (14 # 1))) tr) in
  Ok df.

(** ** datetime, as far as the parameter builder uses it *)

Module Datetime.

Local Open Scope Z_scope.

(** [date.max.toordinal()]; ordinal 1 is 0001-01-01. *)
Definition MAXORDINAL : Z := 3652059.

Record datetime : Type := mkDatetime {
  ordinal : Z;       (* toordinal() *)
  time_of_day : Z    (* microseconds since midnight *)
}.

Definition DI400Y : Z := 146097.
Definition DI100Y : Z := 36524.
Definition DI4Y : Z := 1461.

Definition is_leap (y : Z) : bool :=
  (y mod 4 =? 0) && (negb (y mod 100 =? 0) || (y mod 400 =? 0)).

Definition DAYS_IN_MONTH (m : Z) : Z :=
  match m with
  | 1 => 31 | 2 => 28 | 3 => 31 | 4 => 30 | 5 => 31 | 6 => 30
  | 7 => 31 | 8 => 31 | 9 => 30 | 10 => 31 | 11 => 30 | 12 => 31
  | _ => -1
  end.

Definition DAYS_BEFORE_MONTH (m : Z) : Z :=
  match m with
  | 1 => 0 | 2 => 31 | 3 => 59 | 4 => 90 | 5 => 120 | 6 => 151
  | 7 => 181 | 8 => 212 | 9 => 243 | 10 => 273 | 11 => 304 | 12 => 334
  | _ => -1
  end.

Definition days_before_year (y : Z) : Z :=
  let y := y - 1 in y * 365 + y / 4 - y / 100 + y / 400.

Definition days_before_month (y m : Z) : Z :=
  DAYS_BEFORE_MONTH m + (if (2 <? m) && is_leap y then 1 else 0).

(** year, month, day to ordinal. *)
Definition ymd2ord (y m d : Z) : Z :=
  days_before_year y + days_before_month y m + d.

(** ordinal to (year, month, day). *)
Definition ord2ymd (n : Z) : Z * Z * Z :=
  let n := n - 1 in
  let n400 := n / DI400Y in
  let n := n mod DI400Y in
  let year := n400 * 400 + 1 in
  let n100 := n / DI100Y in
  let n := n mod DI100Y in
  let n4 := n / DI4Y in
  let n := n mod DI4Y in
  let n1 := n / 365 in
  let n := n mod 365 in
  let year := year + n100 * 100 + n4 * 4 + n1 in
  if (n1 =? 4) || (n100 =? 4) then (year - 1, 12, 31)
  else
    let leapyear := (n1 =? 3) && (negb (n4 =? 24) || (n100 =? 3)) in
    let month := Z.shiftr (n + 50) 5 in
    let preceding :=
      DAYS_BEFORE_MONTH month + (if (2 <? month) && leapyear then 1 else 0) in
    if n <? preceding then
      let month := month - 1 in
      let preceding :=
        preceding
        - (DAYS_IN_MONTH month + (if (month =? 2) && leapyear then 1 else 0)) in
      (year, month, n - preceding + 1)
    else (year, month, n - preceding + 1).

(** [datetime(y, m, d)], at midnight. *)
Definition of_ymd (y m d : Z) : datetime := mkDatetime (ymd2ord y m d) 0.

(** [timedelta(days=n)]: the number of days, bounded in magnitude. *)
Definition timedelta (days : Z) : result Z :=
  if decide (-999999999 <= days <= 999999999) then Ok days
  else Raise (OverflowError "days; must have magnitude <= 999999999").

(** [d - delta]: the date moves, the time of day stays; a result outside
    0001-01-01 .. 9999-12-31 is an [OverflowError]. *)
Definition sub (d : datetime) (delta : Z) : result datetime :=
  let o := ordinal d - delta in
  if decide (1 <= o <= MAXORDINAL) then Ok (mkDatetime o (time_of_day d))
  else Raise (OverflowError "date value out of range").

Definition digit (n : Z) : ascii :=
  ascii_of_nat (48 + Z.to_nat (n mod 10)).

(** A number in exactly two, or four, decimal digits. *)
Definition pad2 (n : Z) : string :=
  String (digit (n / 10)) (String (digit n) EmptyString).

Definition pad4 (n : Z) : string :=
  String (digit (n / 1000)) (String (digit (n / 100)) (pad2 n)).

(** A number from 0 to 9999 in as many decimal digits as it needs. *)
Definition decimal (n : Z) : string :=
  if n <? 10 then String (digit n) EmptyString
  else if n <? 100 then pad2 n
  else if n <? 1000 then String (digit (n / 100)) (pad2 n)
  else pad4 n.

(** [d.strftime(fmt)] for the directives [%Y], [%m], [%d] and [%%];
    every other character is copied.  CPython leaves [%Y] to the C
    library, and glibc writes the year as a plain decimal number: a year
    below 1000 comes out with fewer than four digits.  [%m] and [%d] are
    always two digits. *)
Fixpoint strftime_from (y m d : Z) (fmt : string) : string :=
  match fmt with
  | EmptyString => EmptyString
  | String "%" (String "Y" rest) => decimal y +:+ strftime_from y m d rest
  | String "%" (String "m" rest) => pad2 m +:+ strftime_from y m d rest
  | String "%" (String "d" rest) => pad2 d +:+ strftime_from y m d rest
  | String "%" (String "%" rest) => String "%" (strftime_from y m d rest)
  | String c rest => String c (strftime_from y m d rest)
  end.

Definition strftime (d : datetime) (fmt : string) : string :=
  let '(y, m, dd) := ord2ymd (ordinal d) in strftime_from y m dd fmt.

End Datetime.

Import Datetime.

(** ** settings.py *)

(** What the process finds around it: the environment variables, read when
    [settings] is imported, and the clock, read by [datetime.today()]. *)
Record world : Type := mkWorld {
  environ : gmap string string;
  today : datetime
}.

Module settings.

Definition getenv (w : world) (name : string) : strval :=
  match environ w !! name with
  | Some v => PyStr v
  | None => PyNone
  end.

Definition DATE_FORMAT : string := "%Y-%m-%d".
Definition WTD_BASE_URL : string := "https://www.worldtradingdata.com/".
Definition WTD_API_URL : string := WTD_BASE_URL +:+ "api/v1/".
Definition WTD_HISTORY_URL : string := WTD_API_URL +:+ "history/".
Definition WTD_API_TOKEN (w : world) : strval := getenv w "WTD_API_TOKEN".

End settings.

(** ** utils.py: the parameter builder *)

Definition date_format (date : datetime) : string :=
  strftime date settings.DATE_FORMAT.

Definition default_symbol : string := "UKX".
Definition default_previous_days : Z := 300.
Definition default_sort : string := "oldest".

(** An absent [start_date] or [end_date] is [None]; a [datetime] is always
    truthy, so [not end_date] holds exactly when the argument is [None]. *)
Definition get_wtd_query_params (w : world) (symbol : string)
    (start_date end_date : option datetime) (previous_days : Z) (sort : string)
  : result (gmap string strval) :=
  let end_date :=
    match end_date with
    | None => today w
    | Some e => e
    end in
  let* start_date :=
    match start_date with
    | None =>
        let* delta := timedelta previous_days in
        Datetime.sub end_date delta
    | Some s => Ok s
    end in
  let params : gmap string strval :=
    <["symbol" := PyStr symbol]>
      (<["sort" := PyStr sort]>
         (<["date_from" := PyStr (date_format start_date)]>
            (<["date_to" := PyStr (date_format end_date)]>
               (<["api_token" := settings.WTD_API_TOKEN w]> ∅)))) in
  Ok params.


(** ** utils.py: loading the history and deriving the columns *)

(** [get_atr_dataframe] from line 93 on.  Lines 69-76 build the query, send
    it and parse the answer; [data] is the parsed answer. *)
Definition get_atr_dataframe (data : Json.value) : result Frame :=
  let* h := Json.getitem data "history" in
  let history := Json.dumps h in
  let* df := DataFrame history in
  let df := transpose df in
  atr_columns df.

(** ** Notions the properties are stated with *)

(** The dtype in which line 100 subtracts: int64 when the high and the low
    column both are int64, float64 otherwise. *)
Definition spread_dtype (df : Frame) : dtype :=
  match getcol df "high", getcol df "low" with
  | Ok high, Ok low => dtype_of (col_sub high low)
  | _, _ => float64
  end.

(** The cells of the five derived columns, written out from the cells of
    the three columns the calculator reads. *)
Definition th_tl (ty : dtype) (high low : Series) : Series :=
  match ty with
  | int64 => cell_wrap64 <$> series_sub high low
  | float64 => series_sub high low
  end.
Definition th_yc (high low : Series) : Series :=
  series_abs (series_sub high (shift1 low)).
Definition tl_yc (low close : Series) : Series :=
  series_abs (series_sub low (shift1 close)).
Definition true_range (ty : dtype) (rows : list string) (high low close : Series)
  : Series :=
  max_axis1 (mkFrame rows [("TH-TL", mkColumn ty (th_tl ty high low));
                           ("TL-YC", mkColumn float64 (tl_yc low close))]).
Definition atr_sma (ty : dtype) (rows : list string) (high low close : Series)
  : Series :=
  rolling_apply 14 (fun x => cell_div (py_sum x) (Some (14 # 1)))
    (true_range ty rows high low close).

(** The columns the calculator writes, in the order in which it writes
    them. *)
Definition derived_names : list string :=
  ["TH-TL"; "TH-YC"; "TL-YC"; "True Range"; "ATR (sma)"].

(** The column labels of a frame, in column order. *)
Definition column_names (df : Frame) : list string := (columns df).*1.

(** The frame the calculator builds from [df] once its three inputs are
    read: the five assignments of lines 100-114, in order. *)
Definition with_derived (df : Frame) (high low close : Series) : Frame :=
  let ty := spread_dtype df in
  setitem
    (setitem
       (setitem
          (setitem (setcol df "TH-TL" (mkColumn ty (th_tl ty high low)))
                   "TH-YC" (th_yc high low))
          "TL-YC" (tl_yc low close))
       "True Range" (true_range ty (index df) high low close))
    "ATR (sma)" (atr_sma ty (index df) high low close).

(** A number an int64 holds as it is. *)
Definition fits_int64 (x : Q) : Prop := (inject_Z (wrap64 (Qfloor x)) == x)%Q.

(** The arithmetic mean of fourteen values, as the lambda of line 114
    computes it: the left-to-right sum, divided by 14. *)
Definition mean14 (vals : list Q) : Q := (foldl Qplus 0 vals / (14 # 1))%Q.

Definition is_digit (c : ascii) : bool :=
  (48 <=? nat_of_ascii c)%nat && (nat_of_ascii c <=? 57)%nat.

(** The shape YYYY-MM-DD: ten characters, digits but for the two dashes. *)
Definition iso_date_shape (s : string) : bool :=
  match s with
  | String y1 (String y2 (String y3 (String y4 (String d1
      (String m1 (String m2 (String d2 (String e1 (String e2 EmptyString)))))))))
    => is_digit y1 && is_digit y2 && is_digit y3 && is_digit y4
       && Ascii.eqb d1 "-" && is_digit m1 && is_digit m2
       && Ascii.eqb d2 "-" && is_digit e1 && is_digit e2
  | _ => false
  end.

(** The five keys of the parameter map. *)
Definition param_keys : gset string :=
  list_to_set ["symbol"; "sort"; "date_from"; "date_to"; "api_token"].

(** The end of the range the builder uses: the argument, else today. *)
Definition end_of (w : world) (end_date : option datetime) : datetime :=
  match end_date with
  | Some e => e
  | None => today w
  end.

(** The calendar year of a datetime. *)
Definition year_of (d : datetime) : Z := (ord2ymd (ordinal d)).1.1.

(** The dates the builder can reach from [end_date] by [previous_days]. *)
Definition in_range (end_date : datetime) (previous_days : Z) : Prop :=
  (-999999999 <= previous_days <= 999999999)%Z
  /\ (1 <= ordinal end_date - previous_days <= MAXORDINAL)%Z.

(** Two datetimes on the same calendar day. *)
Definition same_day (a b : datetime) : Prop := ordinal a = ordinal b.

(** ** Sample data *)

Definition q (n : Z) (d : positive) : cell := Some (n # d).

(** Two days in ascending order, already as a frame of numbers. *)
Definition sample : Frame :=
  mkFrame ["2018-10-15"; "2018-10-16"]
    [("open", mkColumn float64 [q 7000 1; q 702922 100]);
     ("high", mkColumn float64 [q 7050 1; q 706208 100]);
     ("low", mkColumn float64 [q 7000 1; q 699893 100]);
     ("close", mkColumn float64 [q 7010 1; q 705940 100]);
     ("volume", mkColumn float64 [q 0 1; q 0 1])].

(** Fifteen days with a rising high and a constant low and close. *)
Definition rising : Frame :=
  mkFrame ["2018-10-01"; "2018-10-02"; "2018-10-03"; "2018-10-04";
     "2018-10-05"; "2018-10-06"; "2018-10-07"; "2018-10-08"; "2018-10-09";
     "2018-10-10"; "2018-10-11"; "2018-10-12"; "2018-10-13"; "2018-10-14";
     "2018-10-15"]
    [("open",
      mkColumn float64 [q 102 1; q 102 1; q 102 1; q 102 1; q 102 1;
         q 102 1; q 102 1; q 102 1; q 102 1; q 102 1; q 102 1; q 102 1;
         q 102 1; q 102 1; q 102 1]);
     ("high",
      mkColumn float64 [q 110 1; q 112 1; q 114 1; q 116 1; q 118 1;
         q 120 1; q 122 1; q 124 1; q 126 1; q 128 1; q 130 1; q 132 1;
         q 134 1; q 136 1; q 138 1]);
     ("low",
      mkColumn float64 [q 100 1; q 100 1; q 100 1; q 100 1; q 100 1;
         q 100 1; q 100 1; q 100 1; q 100 1; q 100 1; q 100 1; q 100 1;
         q 100 1; q 100 1; q 100 1]);
     ("close",
      mkColumn float64 [q 105 1; q 105 1; q 105 1; q 105 1; q 105 1;
         q 105 1; q 105 1; q 105 1; q 105 1; q 105 1; q 105 1; q 105 1;
         q 105 1; q 105 1; q 105 1]);
     ("volume",
      mkColumn float64 [q 0 1; q 0 1; q 0 1; q 0 1; q 0 1; q 0 1; q 0 1;
         q 0 1; q 0 1; q 0 1; q 0 1; q 0 1; q 0 1; q 0 1; q 0 1])].

(** Two days where the second high is far above the first low. *)
Definition gapped : Frame :=
  mkFrame ["2018-10-15"; "2018-10-16"]
    [("open", mkColumn float64 [q 2 1; q 9 1]);
     ("high", mkColumn float64 [q 3 1; q 10 1]);
     ("low", mkColumn float64 [q 1 1; q 9 1]);
     ("close", mkColumn float64 [q 9 1; q 10 1]);
     ("volume", mkColumn float64 [q 0 1; q 0 1])].

(** The process on 2018-10-16 at one in the morning, with no environment
    variable set. *)
Definition sample_world : world :=
  mkWorld ∅ (mkDatetime (ymd2ord 2018 10 16) 3600000000).

(** Two days of whole numbers within a narrow range, as a payload of JSON
    integers gives them: every column is int64. *)
Definition whole : Frame :=
  mkFrame ["2018-10-15"; "2018-10-16"]
    [("open", mkColumn int64 [q 7000 1; q 7029 1]);
     ("high", mkColumn int64 [q 7050 1; q 7062 1]);
     ("low", mkColumn int64 [q 7000 1; q 6998 1]);
     ("close", mkColumn int64 [q 7010 1; q 7059 1]);
     ("volume", mkColumn int64 [q 0 1; q 0 1])].

(** Two days of whole numbers far apart: the first high is 2^62 and the
    first low -2^62, so their difference, 2^63, is one more than the
    largest int64. *)
Definition wide : Frame :=
  mkFrame ["2018-10-15"; "2018-10-16"]
    [("open", mkColumn int64 [q 0 1; q 2 1]);
     ("high", mkColumn int64 [q (2 ^ 62) 1; q 3 1]);
     ("low", mkColumn int64 [q (- 2 ^ 62) 1; q 1 1]);
     ("close", mkColumn int64 [q 0 1; q 2 1]);
     ("volume", mkColumn int64 [q 0 1; q 0 1])].

(** The two sample days without their close column. *)
Definition no_close : Frame :=
  mkFrame ["2018-10-15"; "2018-10-16"]
    [("high", mkColumn float64 [q 7050 1; q 706208 100]);
     ("low", mkColumn float64 [q 7000 1; q 699893 100])].

(** The same instant of the clock, late in the evening. *)
Definition sample_world_evening : world :=
  mkWorld ∅ (mkDatetime (ymd2ord 2018 10 16) 82800000000).

(** One day of a history as the provider sends it: every number is a
    JSON string. *)
Definition day (open high low close volume : string) : Json.value :=
  Json.Dict [("open", Json.Str open); ("close", Json.Str close);
             ("high", Json.Str high); ("low", Json.Str low);
             ("volume", Json.Str volume)].

Definition day15 : Json.value := day "7000.00" "7050.00" "7000.00" "7010.00" "0".
Definition day16 : Json.value := day "7029.22" "7062.08" "6998.93" "7059.40" "0".

(** A parsed answer of the provider around a history. *)
Definition payload (history : list (string * Json.value)) : Json.value :=
  Json.Dict [("name", Json.Str "UKX"); ("history", Json.Dict history)].

(** The two sample days, oldest first and newest first. *)
Definition history_asc : list (string * Json.value) :=
  [("2018-10-15", day15); ("2018-10-16", day16)].

Definition history_desc : list (string * Json.value) :=
  [("2018-10-16", day16); ("2018-10-15", day15)].

(** A day without its fields, as some record of a history. *)
Definition broken_history : Json.value :=
  Json.Dict [("history", Json.Dict [("2018-10-16", Json.Dict [("open", Json.Str "x")])])].

(** New Year's Day of the year 1, the first day a datetime can hold. *)
Definition first_day : datetime := mkDatetime 1 0.

(** * Properties *)

(** ** Columns of a frame *)

Lemma assoc_assign_eq name c cols : assoc name (assign name c cols) = Some c.
Proof.
  induction cols as [|[n c0] rest IH]; simpl.
  - by rewrite decide_True.
  - destruct (decide (n = name)) as [->|Hne]; simpl.
    + by rewrite decide_True.
    + by rewrite decide_False.
Qed.

Lemma assoc_assign_ne name other c cols :
  name <> other -> assoc other (assign name c cols) = assoc other cols.
Proof.
  intros Hne. induction cols as [|[n c0] rest IH]; simpl.
  - by rewrite decide_False.
  - destruct (decide (n = name)) as [->|Hn]; simpl.
    + by rewrite !decide_False.
    + destruct (decide (n = other)); [done | apply IH].
Qed.

Lemma assign_same name c cols : assoc name cols = Some c -> assign name c cols = cols.
Proof.
  induction cols as [|[n c0] rest IH]; simpl; [done|].
  destruct (decide (n = name)) as [->|Hne].
  - by intros [= ->].
  - intros H. by rewrite IH.
Qed.

Lemma getcol_setcol_eq df name c : getcol (setcol df name c) name = Ok c.
Proof. unfold getcol, setcol; simpl. by rewrite assoc_assign_eq. Qed.

Lemma getcol_setcol_ne df name other c :
  name <> other -> getcol (setcol df name c) other = getcol df other.
Proof. intros Hne. unfold getcol, setcol; simpl. by rewrite assoc_assign_ne. Qed.

Lemma setcol_same df name c : getcol df name = Ok c -> setcol df name c = df.
Proof.
  unfold getcol, setcol. destruct df as [rows cols]; simpl.
  destruct (assoc name cols) as [c'|] eqn:E; [|done].
  intros [= ->]. by rewrite assign_same.
Qed.

Lemma getitem_setcol_eq df name c : getitem (setcol df name c) name = Ok (cells c).
Proof. unfold getitem. by rewrite getcol_setcol_eq. Qed.

Lemma getitem_setcol_ne df name other c :
  name <> other -> getitem (setcol df name c) other = getitem df other.
Proof. intros Hne. unfold getitem. by rewrite getcol_setcol_ne. Qed.

Lemma getitem_setitem_eq df name s : getitem (setitem df name s) name = Ok s.
Proof. apply getitem_setcol_eq. Qed.

Lemma getitem_setitem_ne df name other s :
  name <> other -> getitem (setitem df name s) other = getitem df other.
Proof. apply getitem_setcol_ne. Qed.

(** The cells [getitem] returns are those of the column [getcol] returns. *)
Lemma getitem_getcol df name s :
  getitem df name = Ok s <-> exists c, getcol df name = Ok c /\ cells c = s.
Proof.
  unfold getitem. destruct (getcol df name) as [c|e]; simpl.
  - split; [intros [= <-]; by exists c | by intros (c' & [= <-] & <-)].
  - split; [done | by intros (c' & ? & _)].
Qed.

Lemma assoc_elem name c cols : assoc name cols = Some c -> (name, c) ∈ cols.
Proof.
  induction cols as [|[n c0] rest IH]; simpl; [done|].
  destruct (decide (n = name)) as [->|Hne].
  - intros [= ->]. apply list_elem_of_here.
  - intros H. apply list_elem_of_further, IH, H.
Qed.

Lemma getitem_length df name s :
  wf_frame df -> getitem df name = Ok s -> length s = length (index df).
Proof.
  unfold wf_frame. intros Hwf (c & H & <-)%getitem_getcol. unfold getcol in H.
  destruct (assoc name (columns df)) as [c'|] eqn:E; [|done].
  injection H as ->. apply assoc_elem in E.
  rewrite Forall_forall in Hwf. apply (Hwf _ E).
Qed.

(** ** What the calculator returns *)

(** The cells of line 100 are [th_tl] at the dtype of the subtraction. *)
Lemma col_sub_cells a b :
  col_sub a b
  = mkColumn (dtype_of (col_sub a b))
      (th_tl (dtype_of (col_sub a b)) (cells a) (cells b)).
Proof. unfold col_sub. by destruct (dtype_of a), (dtype_of b). Qed.

(** A shifted operand makes the subtraction of lines 102 and 103 a
    float64 one, whatever the dtype of the other operand. *)
Lemma col_sub_shift1 a b :
  col_abs (col_sub a (col_shift1 b))
  = mkColumn float64 (series_abs (series_sub (cells a) (shift1 (cells b)))).
Proof. unfold col_sub, col_shift1; simpl. by destruct (dtype_of a). Qed.

(** Once the three columns it reads are there, the calculator returns the
    frame with the five columns assigned in order. *)
Lemma atr_columns_unfold df high low close :
  getitem df "high" = Ok high ->
  getitem df "low" = Ok low ->
  getitem df "close" = Ok close ->
  atr_columns df = Ok (with_derived df high low close).
Proof.
  intros (ch & Hh & <-)%getitem_getcol (cl & Hl & <-)%getitem_getcol
         (cc & Hc & <-)%getitem_getcol.
  unfold atr_columns, with_derived, spread_dtype.
  rewrite Hh, Hl; simpl.
  rewrite !getcol_setcol_ne, Hh, Hl by done; simpl.
  rewrite !getcol_setcol_ne, Hl, Hc by done; simpl.
  unfold getitems; simpl.
  rewrite getcol_setcol_eq; simpl.
  rewrite !getcol_setcol_ne, getcol_setcol_eq by done; simpl.
  rewrite getcol_setcol_eq; simpl.
  rewrite !col_sub_shift1. rewrite (col_sub_cells ch cl).
  unfold col_max_axis1, common_dtype, col_rolling_apply, setitem, true_range,
    atr_sma, th_yc, tl_yc; simpl.
  by destruct (dtype_of (col_sub ch cl)).
Qed.

Lemma with_derived_getitem df high low close :
  let df' := with_derived df high low close in
  getitem df' "TH-TL" = Ok (th_tl (spread_dtype df) high low)
  /\ getitem df' "TH-YC" = Ok (th_yc high low)
  /\ getitem df' "TL-YC" = Ok (tl_yc low close)
  /\ getitem df' "True Range"
     = Ok (true_range (spread_dtype df) (index df) high low close)
  /\ getitem df' "ATR (sma)"
     = Ok (atr_sma (spread_dtype df) (index df) high low close)
  /\ forall name, name ∉ derived_names -> getitem df' name = getitem df name.
Proof.
  unfold with_derived; simpl.
  repeat split;
    repeat first [ rewrite getitem_setitem_eq | rewrite getitem_setcol_eq
                 | rewrite getitem_setitem_ne by done
                 | rewrite getitem_setcol_ne by done ];
    try done.
  intros name Hname. unfold derived_names in Hname.
  rewrite !not_elem_of_cons in Hname.
  destruct Hname as (H1 & H2 & H3 & H4 & H5 & _).
  by rewrite !getitem_setitem_ne, getitem_setcol_ne by done.
Qed.

Lemma atr_columns_returns df high low close :
  getitem df "high" = Ok high ->
  getitem df "low" = Ok low ->
  getitem df "close" = Ok close ->
  exists df',
    atr_columns df = Ok df'
    /\ index df' = index df
    /\ getitem df' "high" = Ok high
    /\ getitem df' "low" = Ok low
    /\ getitem df' "close" = Ok close
    /\ getitem df' "TH-TL" = Ok (th_tl (spread_dtype df) high low)
    /\ getitem df' "TH-YC" = Ok (th_yc high low)
    /\ getitem df' "TL-YC" = Ok (tl_yc low close)
    /\ getitem df' "True Range"
       = Ok (true_range (spread_dtype df) (index df) high low close)
    /\ getitem df' "ATR (sma)"
       = Ok (atr_sma (spread_dtype df) (index df) high low close).
Proof.
  intros Hh Hl Hc. exists (with_derived df high low close).
  destruct (with_derived_getitem df high low close)
    as (H1 & H2 & H3 & H4 & H5 & Hkeep).
  assert (forall name, name ∈ ["high"; "low"; "close"] -> name ∉ derived_names)
    as Hother.
  { intros name Hname. unfold derived_names.
    rewrite !elem_of_cons, elem_of_nil in Hname. rewrite !not_elem_of_cons.
    destruct Hname as [->|[->|[->|[]]]]; repeat split; try done;
      apply not_elem_of_nil. }
  split; [by apply atr_columns_unfold|]. split; [done|].
  split; [rewrite Hkeep; [done | apply Hother; rewrite !elem_of_cons; tauto]|].
  split; [rewrite Hkeep; [done | apply Hother; rewrite !elem_of_cons; tauto]|].
  split; [rewrite Hkeep; [done | apply Hother; rewrite !elem_of_cons; tauto]|].
  done.
Qed.

(** ** Cells of the derived series, row by row *)

Lemma at_row_Some i (s : Series) c : s !! i = Some c -> at_row i s = c.
Proof. unfold at_row. by intros ->. Qed.

Lemma lookup_at_row i (s : Series) : i < length s -> s !! i = Some (at_row i s).
Proof.
  intros Hi. destruct (lookup_lt_is_Some_2 s i Hi) as [c Hc].
  by rewrite Hc, (at_row_Some _ _ _ Hc).
Qed.

Lemma at_row_series_sub a b i :
  at_row i (series_sub a b) = cell_sub (at_row i a) (at_row i b).
Proof.
  unfold at_row, series_sub. rewrite lookup_zip_with.
  destruct (a !! i) as [[x|]|], (b !! i) as [[y|]|]; done.
Qed.

Lemma at_row_series_abs s i : at_row i (series_abs s) = cell_abs (at_row i s).
Proof.
  unfold at_row, series_abs. rewrite list_lookup_fmap.
  destruct (s !! i) as [[x|]|]; done.
Qed.

Lemma shift1_length s : length (shift1 s) = length s.
Proof. unfold shift1. rewrite length_take; simpl. lia. Qed.

Lemma at_row_shift1_0 s : at_row 0 (shift1 s) = None.
Proof. unfold at_row, shift1. destruct s; done. Qed.

Lemma at_row_shift1_S s i : S i < length s -> at_row (S i) (shift1 s) = at_row i s.
Proof.
  intros Hi. unfold at_row, shift1. by rewrite lookup_take_lt by lia.
Qed.

Lemma series_sub_length a b : length (series_sub a b) = min (length a) (length b).
Proof. apply length_zip_with. Qed.

Lemma series_abs_length s : length (series_abs s) = length s.
Proof. apply length_fmap. Qed.

Lemma max_axis1_length df : length (max_axis1 df) = length (index df).
Proof. unfold max_axis1. by rewrite length_fmap, length_seq. Qed.

Lemma cell_max_skipna_None_r c : cell_max_skipna c None = c.
Proof. by destruct c. Qed.

(** TH-TL row by row: the difference, wrapped when the subtraction is an
    int64 one. *)
Lemma at_row_th_tl ty high low i :
  at_row i (th_tl ty high low)
  = match ty with
    | int64 => cell_wrap64 (cell_sub (at_row i high) (at_row i low))
    | float64 => cell_sub (at_row i high) (at_row i low)
    end.
Proof.
  destruct ty; simpl; [|apply at_row_series_sub].
  unfold at_row at 1. rewrite list_lookup_fmap.
  rewrite <- at_row_series_sub. unfold at_row.
  by destruct (series_sub high low !! i) as [[?|]|].
Qed.

Lemma true_range_lookup ty rows high low close i :
  i < length rows ->
  true_range ty rows high low close !! i
  = Some (cell_max_skipna (at_row i (th_tl ty high low))
            (at_row i (tl_yc low close))).
Proof.
  intros Hi. unfold true_range, max_axis1; simpl.
  rewrite list_lookup_fmap, lookup_seq_lt by done; simpl.
  by rewrite cell_max_skipna_None_r.
Qed.

(** ** The rolling window *)

Lemma rolling_apply_length w f s : length (rolling_apply w f s) = length s.
Proof. unfold rolling_apply. by rewrite length_fmap, length_seq. Qed.

Lemma rolling_apply_lookup w f s i :
  i < length s ->
  rolling_apply w f s !! i
  = Some (if decide (w <= length (omap id (window w s i)))
          then f (window w s i) else None).
Proof.
  intros Hi. unfold rolling_apply.
  by rewrite list_lookup_fmap, lookup_seq_lt by done.
Qed.

Lemma window_length w s i : i < length s -> length (window w s i) = min w (i + 1).
Proof.
  intros Hi. unfold window, slice. rewrite length_take, length_drop. lia.
Qed.

Lemma window_full s i : 13 <= i -> window 14 s i = take 14 (drop (i - 13) s).
Proof.
  intros Hi. unfold window, slice.
  replace (i + 1 - 14) with (i - 13) by lia.
  by replace (i + 1 - (i - 13)) with 14 by lia.
Qed.

Lemma omap_id_length_le (l : Series) : length (omap id l) <= length l.
Proof.
  induction l as [|[x|] l IH]; csimpl; lia.
Qed.

Lemma omap_id_Some (vals : list Q) : omap id (Some <$> vals) = vals.
Proof. induction vals as [|x vals IH]; csimpl; [done | by rewrite IH]. Qed.

Lemma omap_id_full (l : Series) :
  length (omap id l) = length l -> exists vals, l = Some <$> vals.
Proof.
  induction l as [|[x|] l IH]; csimpl; intros H.
  - by exists [].
  - destruct IH as [vals ->]; [lia|]. by exists (x :: vals).
  - pose proof (omap_id_length_le l). lia.
Qed.

Lemma all_defined_fmap (l : Series) :
  (forall k, k < length l -> exists x, l !! k = Some (Some x)) ->
  exists vals, l = Some <$> vals.
Proof.
  induction l as [|c l IH]; intros H.
  - by exists [].
  - destruct (H 0) as [x Hx]; [simpl; lia|]. injection Hx as ->.
    destruct IH as [vals ->].
    + intros k Hk. apply (H (S k)). simpl; lia.
    + by exists (x :: vals).
Qed.

Lemma foldl_cell_add_Some a (vals : list Q) :
  foldl cell_add (Some a) (Some <$> vals) = Some (foldl Qplus a vals).
Proof.
  revert a. induction vals as [|x vals IH]; intros a; simpl; [done | apply IH].
Qed.

Lemma py_sum_Some (vals : list Q) :
  py_sum (Some <$> vals) = Some (foldl Qplus 0%Q vals).
Proof. apply foldl_cell_add_Some. Qed.

(** A row of the rolling mean is defined exactly when its window is full
    and holds no missing value. *)
Lemma rolling_mean_row (s : Series) i :
  i < length s ->
  let atr := rolling_apply 14 (fun x => cell_div (py_sum x) (Some (14 # 1))) s in
  (forall v, atr !! i = Some (Some v) ->
     13 <= i /\ exists vals,
       length vals = 14 /\ take 14 (drop (i - 13) s) = Some <$> vals
       /\ v = mean14 vals)
  /\ (forall vals, 13 <= i -> take 14 (drop (i - 13) s) = Some <$> vals ->
        atr !! i = Some (Some (mean14 vals)))
  /\ (i < 13 -> atr !! i = Some None).
Proof.
  intros Hi atr. subst atr. rewrite rolling_apply_lookup by done.
  pose proof (window_length 14 s i Hi) as Hlen.
  pose proof (omap_id_length_le (window 14 s i)) as Hle.
  split; [|split].
  - intros v Hv. destruct (decide _) as [Hfull|]; [|done].
    assert (13 <= i) as H13 by lia. split; [done|].
    destruct (omap_id_full (window 14 s i)) as [vals Hvals]; [lia|].
    exists vals. rewrite <- window_full by done.
    split; [|split; [done|]].
    + rewrite Hvals, length_fmap in Hlen. lia.
    + rewrite Hvals, py_sum_Some in Hv. simpl in Hv. by injection Hv as <-.
  - intros vals H13 Hvals. rewrite window_full, Hvals, omap_id_Some by done.
    assert (length vals = 14) as Hl.
    { rewrite window_full, Hvals, length_fmap in Hlen by done. lia. }
    rewrite decide_True by lia. by rewrite py_sum_Some.
  - intros Hlt. by rewrite decide_False by lia.
Qed.

Lemma th_tl_length ty high low n :
  length high = n -> length low = n -> length (th_tl ty high low) = n.
Proof.
  intros Hh Hl. destruct ty; simpl;
    rewrite ?length_fmap, series_sub_length; lia.
Qed.

Lemma th_yc_length high low n :
  length high = n -> length low = n -> length (th_yc high low) = n.
Proof.
  intros Hh Hl. unfold th_yc.
  rewrite series_abs_length, series_sub_length, shift1_length. lia.
Qed.

Lemma tl_yc_length low close n :
  length low = n -> length close = n -> length (tl_yc low close) = n.
Proof. apply th_yc_length. Qed.

Lemma window_defined (s : Series) i :
  13 <= i -> i < length s ->
  (forall j, i - 13 <= j <= i -> exists x, s !! j = Some (Some x)) ->
  exists vals, take 14 (drop (i - 13) s) = Some <$> vals.
Proof.
  intros H13 Hi Hall. apply all_defined_fmap. intros k Hk.
  rewrite length_take, length_drop in Hk.
  rewrite lookup_take_lt, lookup_drop by lia. apply Hall. lia.
Qed.

Lemma window_defined_inv (s : Series) i (vals : list Q) j :
  13 <= i -> length vals = 14 ->
  take 14 (drop (i - 13) s) = Some <$> vals ->
  i - 13 <= j <= i -> exists x, s !! j = Some (Some x).
Proof.
  intros H13 Hlen Hw Hj.
  assert (take 14 (drop (i - 13) s) !! (j - (i - 13)) = s !! j) as E.
  { rewrite lookup_take_lt, lookup_drop by lia. f_equal. lia. }
  rewrite Hw, list_lookup_fmap in E.
  destruct (lookup_lt_is_Some_2 vals (j - (i - 13))) as [x Hx]; [lia|].
  rewrite Hx in E. by exists x.
Qed.

Lemma true_range_length ty rows high low close :
  length (true_range ty rows high low close) = length rows.
Proof. unfold true_range. by rewrite max_axis1_length. Qed.

Lemma atr_sma_length ty rows high low close :
  length (atr_sma ty rows high low close) = length rows.
Proof. unfold atr_sma. by rewrite rolling_apply_length, true_range_length. Qed.

Lemma lookup_cell_iff (s : Series) i v :
  i < length s -> s !! i = Some (Some v) <-> at_row i s = Some v.
Proof.
  intros Hi. rewrite lookup_at_row by done. split; [by intros [= ->] | by intros ->].
Qed.

(** * The calculator's columns *)

(** C4: for every row i >= 1 the TH-YC cell is |high[i] - low[i-1]|: the
    previous row's low, whatever the close column holds; the cell of row 0
    is missing. *)
Theorem th_yc_is_high_minus_previous_low (df : Frame) (high low close : Series) :
  wf_frame df ->
  getitem df "high" = Ok high ->
  getitem df "low" = Ok low ->
  getitem df "close" = Ok close ->
  exists df' thyc,
    atr_columns df = Ok df'
    /\ getitem df' "TH-YC" = Ok thyc
    /\ length thyc = length (index df)
    /\ (forall i h l,
          high !! S i = Some (Some h) -> low !! i = Some (Some l) ->
          thyc !! S i = Some (Some (Qabs (h - l))))
    /\ (forall i, S i < length (index df) ->
          thyc !! S i = Some (cell_abs (cell_sub (at_row (S i) high) (at_row i low))))
    /\ (index df <> [] -> thyc !! 0 = Some None)
    /\ (forall close' df'',
          atr_columns (setitem df "close" close') = Ok df'' ->
          getitem df'' "TH-YC" = Ok thyc).
Proof.
  intros Hwf Hh Hl Hc.
  destruct (atr_columns_returns df high low close Hh Hl Hc)
    as (df' & Hrun & _ & _ & _ & _ & _ & Hthyc & _).
  pose proof (getitem_length _ _ _ Hwf Hh) as Lh.
  pose proof (getitem_length _ _ _ Hwf Hl) as Ll.
  pose proof (th_yc_length high low _ Lh Ll) as Llen.
  assert (forall i, S i < length (index df) ->
            th_yc high low !! S i
            = Some (cell_abs (cell_sub (at_row (S i) high) (at_row i low)))) as Hrow.
  { intros i Hi. rewrite lookup_at_row by lia. unfold th_yc.
    by rewrite at_row_series_abs, at_row_series_sub, at_row_shift1_S by lia. }
  exists df', (th_yc high low). repeat split; try done.
  - intros i h l Hhi Hli.
    assert (S i < length high) by (by eapply lookup_lt_Some).
    rewrite Hrow by lia.
    by rewrite (at_row_Some _ _ _ Hhi), (at_row_Some _ _ _ Hli).
  - intros Hne. rewrite lookup_at_row.
    + unfold th_yc.
      rewrite at_row_series_abs, at_row_series_sub, at_row_shift1_0.
      by destruct (at_row 0 high).
    + destruct (index df); [done | simpl in *; lia].
  - intros close' df'' Hrun'.
    destruct (atr_columns_returns (setitem df "close" close') high low close')
      as (df2 & Hrun2 & _ & _ & _ & _ & _ & Hthyc2 & _).
    + by rewrite getitem_setitem_ne.
    + by rewrite getitem_setitem_ne.
    + apply getitem_setitem_eq.
    + rewrite Hrun2 in Hrun'. by injection Hrun' as <-.
Qed.


(** C2: the ATR cell of row i is defined exactly when i >= 13 and the
    fourteen True Range cells of rows i-13 .. i are all defined; it is then
    their sum divided by 14; every row before the fourteenth is missing. *)
Theorem atr_defined_iff_full_window (df : Frame) (high low close : Series) :
  wf_frame df ->
  getitem df "high" = Ok high ->
  getitem df "low" = Ok low ->
  getitem df "close" = Ok close ->
  exists df' tr atr,
    atr_columns df = Ok df'
    /\ getitem df' "True Range" = Ok tr
    /\ getitem df' "ATR (sma)" = Ok atr
    /\ length atr = length (index df)
    /\ forall i, i < length (index df) ->
         ((exists v, atr !! i = Some (Some v))
          <-> 13 <= i /\ forall j, i - 13 <= j <= i -> exists x, tr !! j = Some (Some x))
         /\ (forall v, atr !! i = Some (Some v) ->
               exists vals,
                 length vals = 14
                 /\ take 14 (drop (i - 13) tr) = Some <$> vals
                 /\ v = mean14 vals)
         /\ (i < 13 -> atr !! i = Some None).
Proof.
  intros Hwf Hh Hl Hc.
  destruct (atr_columns_returns df high low close Hh Hl Hc)
    as (df' & Hrun & _ & _ & _ & _ & _ & _ & _ & Htr & Hatr).
  set (tr := true_range (spread_dtype df) (index df) high low close) in *.
  assert (length tr = length (index df)) as Ltr.
  { subst tr. unfold true_range. by rewrite max_axis1_length. }
  exists df', tr, (atr_sma (spread_dtype df) (index df) high low close).
  split; [done|]. split; [done|]. split; [done|]. split.
  { unfold atr_sma. by rewrite rolling_apply_length. }
  intros i Hi. unfold atr_sma. fold tr.
  destruct (rolling_mean_row tr i) as (Hdef & Hmean & Hshort); [lia|].
  split; [|split].
  - split.
    + intros [v Hv]. destruct (Hdef v Hv) as (H13 & vals & Hlen & Hw & _).
      split; [done|]. intros j Hj.
      by apply (window_defined_inv tr i vals j).
    + intros [H13 Hall].
      destruct (window_defined tr i) as [vals Hvals]; [done | lia | done |].
      exists (mean14 vals). by apply Hmean.
  - intros v Hv. destruct (Hdef v Hv) as (_ & vals & Hlen & Hw & ->).
    by exists vals.
  - done.
Qed.

Lemma cell_abs_nonneg c v : cell_abs c = Some v -> (0 <= v)%Q.
Proof.
  destruct c as [x|]; simpl; [|done]. intros [= <-]. apply Qabs_nonneg.
Qed.

Lemma cell_max_skipna_nonneg a b v :
  (forall x, a = Some x -> (0 <= x)%Q) ->
  (forall y, b = Some y -> (0 <= y)%Q) ->
  cell_max_skipna a b = Some v -> (0 <= v)%Q.
Proof.
  intros Ha Hb. destruct a as [x|], b as [y|]; simpl; intros [= <-]; auto.
  apply Q.max_case; auto. intros p r Hpr. by rewrite Hpr.
Qed.

(** A True Range cell is not negative when the high is not below the low
    and line 100 does not overflow: its operands are a difference that is
    then what it should be, and an absolute value. *)
Lemma true_range_cell_nonneg ty rows (high low close : Series) i v :
  length high = length rows ->
  length low = length rows ->
  (forall j h l,
     high !! j = Some (Some h) -> low !! j = Some (Some l) -> (l <= h)%Q) ->
  (ty = int64 ->
   forall j h l,
     high !! j = Some (Some h) -> low !! j = Some (Some l) ->
     fits_int64 (h - l)) ->
  true_range ty rows high low close !! i = Some (Some v) -> (0 <= v)%Q.
Proof.
  intros Lh Ll Hhl Hfit Hv.
  assert (i < length rows) as Hi.
  { apply lookup_lt_Some in Hv. by rewrite true_range_length in Hv. }
  rewrite true_range_lookup in Hv by done. injection Hv as Hv.
  eapply cell_max_skipna_nonneg; [| |exact Hv].
  - intros x Hx. rewrite at_row_th_tl in Hx.
    destruct (at_row i high) as [h|] eqn:Eh; [|by destruct ty].
    destruct (at_row i low) as [l|] eqn:El; [|by destruct ty].
    assert (high !! i = Some (Some h)) as Hh by (by apply lookup_cell_iff; [lia|]).
    assert (low !! i = Some (Some l)) as Hl by (by apply lookup_cell_iff; [lia|]).
    pose proof (Hhl i h l Hh Hl) as Hle.
    destruct ty; simpl in Hx; injection Hx as <-; [|lra].
    pose proof (Hfit eq_refl i h l Hh Hl) as Hw. unfold fits_int64 in Hw.
    rewrite Hw. lra.
  - intros y Hy. unfold tl_yc in Hy. rewrite at_row_series_abs in Hy.
    by eapply cell_abs_nonneg.
Qed.

(** C7, as the code has it: when high[i] >= low[i] holds at every row and
    the subtraction of line 100 does not overflow, no defined True Range
    value is negative.  The subtraction can overflow only when the high and
    the low column are both int64. *)
Theorem true_range_nonneg (df : Frame) (high low close : Series) :
  wf_frame df ->
  getitem df "high" = Ok high ->
  getitem df "low" = Ok low ->
  getitem df "close" = Ok close ->
  (forall i h l,
     high !! i = Some (Some h) -> low !! i = Some (Some l) -> (l <= h)%Q) ->
  (spread_dtype df = int64 ->
   forall i h l,
     high !! i = Some (Some h) -> low !! i = Some (Some l) ->
     fits_int64 (h - l)) ->
  exists df' tr,
    atr_columns df = Ok df'
    /\ getitem df' "True Range" = Ok tr
    /\ forall i v, tr !! i = Some (Some v) -> (0 <= v)%Q.
Proof.
  intros Hwf Hh Hl Hc Hhl Hfit.
  destruct (atr_columns_returns df high low close Hh Hl Hc)
    as (df' & Hrun & _ & _ & _ & _ & _ & _ & _ & Htr & _).
  pose proof (getitem_length _ _ _ Hwf Hh) as Lh.
  pose proof (getitem_length _ _ _ Hwf Hl) as Ll.
  exists df', (true_range (spread_dtype df) (index df) high low close).
  split; [done|]. split; [done|]. intros i v Hv.
  exact (true_range_cell_nonneg (spread_dtype df) (index df) high low close
           i v Lh Ll Hhl Hfit Hv).
Qed.

(** ** The calculator on the sample frames *)

Lemma wf_sample : wf_frame sample.
Proof. repeat constructor. Qed.

Lemma wf_whole : wf_frame whole.
Proof. unfold wf_frame. by repeat constructor. Qed.

Lemma wf_wide : wf_frame wide.
Proof. unfold wf_frame. by repeat constructor. Qed.

Lemma wf_rising : wf_frame rising.
Proof. repeat constructor. Qed.

(** C4 on the two sample days: TH-YC[1] = |7062.08 - 7000|, from the low
    of the day before (its close was 7010); TH-YC[0] is missing. *)
Lemma th_yc_on_sample :
  exists df' thyc,
    atr_columns sample = Ok df'
    /\ getitem df' "TH-YC" = Ok thyc
    /\ thyc !! 1 = Some (Some (Qabs ((706208 # 100) - (7000 # 1))))
    /\ thyc !! 0 = Some None.
Proof.
  destruct (th_yc_is_high_minus_previous_low sample _ _ _
              wf_sample eq_refl eq_refl eq_refl)
    as (df' & thyc & Hrun & Hcol & _ & Hrow & _ & H0 & _).
  exists df', thyc. split; [exact Hrun|]. split; [exact Hcol|]. split.
  - apply (Hrow 0%nat); reflexivity.
  - apply H0. discriminate.
Defined.



(** TH-YC is not an operand of True Range: on [gapped], TH-YC[1] = 9 is
    larger than both TH-TL[1] = 1 and TL-YC[1] = 0, and True Range[1] = 1. *)
Example th_yc_not_in_true_range :
  exists df' thyc tr,
    atr_columns gapped = Ok df'
    /\ getitem df' "TH-YC" = Ok thyc
    /\ getitem df' "True Range" = Ok tr
    /\ thyc !! 1 = Some (Some (9 # 1))
    /\ tr !! 1 = Some (Some (1 # 1)).
Proof.
  eexists _, _, _. split; [vm_compute; reflexivity|].
  split; [vm_compute; reflexivity|]. split; [vm_compute; reflexivity|].
  split; reflexivity.
Qed.

(** C2 on fifteen days: rows 0 .. 12 of ATR are missing, rows 13 and 14
    are defined, and row 13 is the mean of True Range[0 .. 13]. *)
Lemma atr_on_rising :
  exists df' tr atr,
    atr_columns rising = Ok df'
    /\ getitem df' "True Range" = Ok tr
    /\ getitem df' "ATR (sma)" = Ok atr
    /\ atr !! 12 = Some None
    /\ (exists v, atr !! 13 = Some (Some v))
    /\ (exists v vals,
          atr !! 13 = Some (Some v)
          /\ take 14 tr = Some <$> vals /\ v = mean14 vals).
Proof.
  destruct (atr_defined_iff_full_window rising _ _ _
              wf_rising eq_refl eq_refl eq_refl)
    as (df' & tr & atr & Hrun & Htr & Hatr & _ & Hrows).
  assert (exists v, atr !! 13 = Some (Some v)) as [v Hv].
  { apply (Hrows 13%nat); [simpl; lia|]. split; [lia|]. intros j Hj.
    vm_compute in Hrun. injection Hrun as <-.
    vm_compute in Htr. injection Htr as <-.
    do 14 (destruct j as [|j]; [eexists; reflexivity|]). lia. }
  exists df', tr, atr. split; [exact Hrun|]. split; [exact Htr|].
  split; [exact Hatr|]. split; [|split].
  - apply (Hrows 12%nat); simpl; lia.
  - by exists v.
  - destruct (Hrows 13%nat) as (_ & Hmean & _); [simpl; lia|].
    destruct (Hmean v Hv) as (vals & _ & Hw & Hval).
    exists v, vals. by rewrite drop_0 in Hw.
Defined.

(** C7 on two days of whole numbers, where the high is above the low and
    the int64 differences are small. *)
Lemma true_range_nonneg_on_whole :
  exists df' tr,
    atr_columns whole = Ok df'
    /\ getitem df' "True Range" = Ok tr
    /\ forall i v, tr !! i = Some (Some v) -> (0 <= v)%Q.
Proof.
  apply (true_range_nonneg whole _ _ _ wf_whole eq_refl eq_refl eq_refl).
  - intros [|[|i]] h l; simpl; intros [= <-] [= <-]; unfold Qle; simpl; lia.
  - intros _ [|[|i]] h l; simpl; intros [= <-] [= <-]; reflexivity.
Defined.

(** On two days of whole numbers whose first high and low are 2^63 apart,
    the high is not below the low at any row, and True Range[0] is -2^63:
    the int64 subtraction of line 100 has wrapped around. *)
Lemma true_range_negative_on_wide :
  exists df' high low tr,
    atr_columns wide = Ok df'
    /\ getitem wide "high" = Ok high
    /\ getitem wide "low" = Ok low
    /\ getitem df' "True Range" = Ok tr
    /\ (forall i h l,
          high !! i = Some (Some h) -> low !! i = Some (Some l) -> (l <= h)%Q)
    /\ tr !! 0 = Some (Some (inject_Z (- 2 ^ 63)))
    /\ ~ (0 <= inject_Z (- 2 ^ 63))%Q.
Proof.
  eexists _, _, _, _. split; [vm_compute; reflexivity|].
  split; [reflexivity|]. split; [reflexivity|].
  split; [vm_compute; reflexivity|]. split; [|split].
  - intros [|[|i]] h l; simpl; intros [= <-] [= <-]; unfold Qle; simpl; lia.
  - reflexivity.
  - unfold Qle; simpl. lia.
Qed.

(** * Loading the history *)

(** With a [str] in hand the constructor never builds a frame, so the
    function as written returns for no parsed answer at all. *)
Lemma get_atr_dataframe_raises data : exists e, get_atr_dataframe data = Raise e.
Proof.
  unfold get_atr_dataframe.
  destruct (Json.getitem data "history") as [h|e]; simpl; eauto.
Qed.

(** C3 at its failing input: the two sample days, sent newest first or
    oldest first, give no frame at all.  Line 93 turns the history into JSON
    text and line 96 hands that text to the constructor, which refuses it. *)
Theorem no_frame_for_either_key_order :
  get_atr_dataframe (payload history_desc)
  = Raise (ValueError "DataFrame constructor not properly called!")
  /\ get_atr_dataframe (payload history_asc)
     = Raise (ValueError "DataFrame constructor not properly called!").
Proof. split; reflexivity. Qed.

(** C5, as the code has it: there is no MalformedResponseError.  A parsed
    object without the [history] key fails with KeyError('history'), and a
    parsed answer that is no object fails with a TypeError. *)
Theorem missing_history_is_key_error (data : Json.value) :
  (forall d, data = Json.Dict d -> Json.lookup "history" d = None ->
             get_atr_dataframe data = Raise (KeyError "history"))
  /\ ((forall d, data <> Json.Dict d) ->
      exists msg, get_atr_dataframe data = Raise (TypeError msg)).
Proof.
  split.
  - intros d -> Hd. unfold get_atr_dataframe; simpl. by rewrite Hd.
  - intros Hno. unfold get_atr_dataframe.
    destruct data as [| | | | |d]; simpl; eauto.
    by destruct (Hno d).
Qed.

(** C5 on an object without the key and on a JSON list. *)
Lemma missing_history_on_sample :
  get_atr_dataframe (Json.Dict [("name", Json.Str "UKX")])
  = Raise (KeyError "history")
  /\ exists msg, get_atr_dataframe (Json.List []) = Raise (TypeError msg).
Proof.
  split.
  - apply (proj1 (missing_history_is_key_error (Json.Dict [("name", Json.Str "UKX")]))
             [("name", Json.Str "UKX")]); reflexivity.
  - apply (proj2 (missing_history_is_key_error (Json.List []))). discriminate.
Defined.

(** Neither a missing [history], nor an answer that is no object, nor a
    record without its fields gives a MalformedResponseError. *)
Lemma no_malformed_response_error :
  get_atr_dataframe (Json.Dict [("name", Json.Str "UKX")])
  = Raise (KeyError "history")
  /\ exn_kind (KeyError "history") <> "MalformedResponseError"
  /\ get_atr_dataframe (Json.List [])
     = Raise (TypeError "list indices must be integers or slices, not str")
  /\ exn_kind (TypeError "list indices must be integers or slices, not str")
     <> "MalformedResponseError"
  /\ get_atr_dataframe broken_history
     = Raise (ValueError "DataFrame constructor not properly called!")
  /\ exn_kind (ValueError "DataFrame constructor not properly called!")
     <> "MalformedResponseError".
Proof. repeat split; (reflexivity || discriminate). Qed.

(** C6 at its failing input: the payload whose history is the empty object
    gives no empty result.  The history becomes the text of line 93 and the
    constructor of line 96 refuses it. *)
Theorem empty_history_is_an_error :
  get_atr_dataframe (payload [])
  = Raise (ValueError "DataFrame constructor not properly called!").
Proof. reflexivity. Qed.

(** * The parameter builder *)

Lemma is_digit_digit n : is_digit (digit n) = true.
Proof.
  unfold digit.
  assert (0 <= n mod 10 < 10)%Z as H by (apply Z.mod_pos_bound; lia).
  assert (exists k, (k < 10)%nat /\ Z.to_nat (n mod 10) = k) as (k & Hk & ->).
  { exists (Z.to_nat (n mod 10)). split; [lia | done]. }
  do 10 (destruct k as [|k]; [reflexivity|]). lia.
Qed.

Lemma date_format_shape d :
  (1000 <= year_of d)%Z -> iso_date_shape (date_format d) = true.
Proof.
  unfold year_of, date_format, strftime.
  destruct (ord2ymd (ordinal d)) as [[y m] dd]. simpl. intros Hy.
  lazy beta iota zeta delta [strftime_from settings.DATE_FORMAT decimal].
  rewrite !(proj2 (Z.ltb_ge _ _)) by lia.
  lazy beta iota zeta delta [pad4 pad2 String.append iso_date_shape].
  by rewrite !is_digit_digit.
Qed.

Lemma date_format_short d :
  (0 <= year_of d < 1000)%Z -> iso_date_shape (date_format d) = false.
Proof.
  unfold year_of, date_format, strftime.
  destruct (ord2ymd (ordinal d)) as [[y m] dd]. simpl. intros Hy.
  lazy beta iota zeta delta [strftime_from settings.DATE_FORMAT decimal].
  destruct (y <? 10)%Z eqn:H1; [reflexivity|].
  destruct (y <? 100)%Z eqn:H2; [reflexivity|].
  destruct (y <? 1000)%Z eqn:H3; [reflexivity|].
  apply Z.ltb_ge in H3. lia.
Qed.

Lemma get_wtd_query_params_ok w symbol start_date end_date previous_days sort :
  (start_date = None -> in_range (end_of w end_date) previous_days) ->
  let start' :=
    match start_date with
    | Some s => s
    | None =>
        mkDatetime (ordinal (end_of w end_date) - previous_days)
                   (time_of_day (end_of w end_date))
    end in
  get_wtd_query_params w symbol start_date end_date previous_days sort
  = Ok (<["symbol" := PyStr symbol]>
          (<["sort" := PyStr sort]>
             (<["date_from" := PyStr (date_format start')]>
                (<["date_to" := PyStr (date_format (end_of w end_date))]>
                   (<["api_token" := settings.WTD_API_TOKEN w]> ∅))))).
Proof.
  intros Hrange. unfold get_wtd_query_params. fold (end_of w end_date).
  destruct start_date as [s|]; simpl; [done|].
  destruct Hrange as [Hdays Hord]; [done|].
  unfold timedelta. rewrite decide_True by done. simpl.
  unfold Datetime.sub. by rewrite decide_True by done.
Qed.

(** C8, as the code has it: an absent end date is today; an absent start
    date is the end date minus [previous_days] days; a given start date is
    used as it is and [previous_days] then changes nothing; the map has
    exactly the five keys symbol, sort, date_from, date_to and api_token.
    Each date is written by strftime('%Y-%m-%d'): that is the shape
    YYYY-MM-DD when its year has four digits, and a shorter text when the
    year is below 1000. *)
Theorem query_params_spec (w : world) (symbol : string)
    (start_date end_date : option datetime) (previous_days : Z) (sort : string) :
  (start_date = None -> in_range (end_of w end_date) previous_days) ->
  exists params start' end',
    get_wtd_query_params w symbol start_date end_date previous_days sort = Ok params
    /\ (end_date = None -> end' = today w)
    /\ (forall e, end_date = Some e -> end' = e)
    /\ (start_date = None ->
          ordinal start' = (ordinal end' - previous_days)%Z
          /\ time_of_day start' = time_of_day end')
    /\ (forall s, start_date = Some s ->
          start' = s
          /\ forall other_days,
               get_wtd_query_params w symbol start_date end_date other_days sort
               = Ok params)
    /\ dom params = param_keys
    /\ params !! "symbol" = Some (PyStr symbol)
    /\ params !! "sort" = Some (PyStr sort)
    /\ params !! "date_from" = Some (PyStr (date_format start'))
    /\ params !! "date_to" = Some (PyStr (date_format end'))
    /\ params !! "api_token" = Some (settings.WTD_API_TOKEN w)
    /\ ((1000 <= year_of start')%Z -> iso_date_shape (date_format start') = true)
    /\ ((1000 <= year_of end')%Z -> iso_date_shape (date_format end') = true)
    /\ ((0 <= year_of start' < 1000)%Z ->
        iso_date_shape (date_format start') = false)
    /\ ((0 <= year_of end' < 1000)%Z ->
        iso_date_shape (date_format end') = false).
Proof.
  intros Hrange.
  pose proof (get_wtd_query_params_ok w symbol start_date end_date
                previous_days sort Hrange) as Hrun.
  simpl in Hrun.
  eexists _,
    (match start_date with
     | Some s => s
     | None =>
         mkDatetime (ordinal (end_of w end_date) - previous_days)
                    (time_of_day (end_of w end_date))
     end),
    (end_of w end_date).
  split; [exact Hrun|].
  split; [by intros ->|]. split; [by intros e ->|].
  split; [by intros ->|]. split.
  { intros s ->. split; [done|]. intros other_days.
    by rewrite get_wtd_query_params_ok. }
  split.
  { rewrite !dom_insert_L, dom_empty_L. unfold param_keys. simpl. set_solver. }
  split; [by simplify_map_eq|]. split; [by simplify_map_eq|].
  split; [by simplify_map_eq|]. split; [by simplify_map_eq|].
  split; [by simplify_map_eq|].
  split; [apply date_format_shape|]. split; [apply date_format_shape|].
  split; apply date_format_short.
Qed.

(** C9: the api_token entry is what the environment held when [settings]
    was read; with the variable unset the builder returns all the same and
    the entry is [None]. *)
Theorem api_token_from_environment (env : gmap string string) (now : datetime)
    (symbol : string) (start_date end_date : option datetime)
    (previous_days : Z) (sort : string) :
  (start_date = None ->
   in_range (end_of (mkWorld env now) end_date) previous_days) ->
  exists params,
    get_wtd_query_params (mkWorld env now) symbol start_date end_date
      previous_days sort = Ok params
    /\ (forall token, env !! "WTD_API_TOKEN" = Some token ->
          params !! "api_token" = Some (PyStr token))
    /\ (env !! "WTD_API_TOKEN" = None -> params !! "api_token" = Some PyNone).
Proof.
  intros Hrange.
  pose proof (get_wtd_query_params_ok (mkWorld env now) symbol start_date
                end_date previous_days sort Hrange) as Hrun.
  simpl in Hrun. eexists. split; [exact Hrun|].
  unfold settings.WTD_API_TOKEN, settings.getenv; simpl.
  split.
  - intros token Htoken. rewrite Htoken. by simplify_map_eq.
  - intros Hnone. rewrite Hnone. by simplify_map_eq.
Qed.

(** ** The builder on a sample call *)

(** C8 with every default, on 2018-10-16 at one in the morning: the range
    runs from 2017-12-20, three hundred days back, to 2018-10-16. *)
Lemma query_params_on_defaults :
  exists params,
    get_wtd_query_params sample_world default_symbol None None
      default_previous_days default_sort = Ok params
    /\ dom params = param_keys
    /\ params !! "symbol" = Some (PyStr "UKX")
    /\ params !! "sort" = Some (PyStr "oldest")
    /\ params !! "date_from" = Some (PyStr "2017-12-20")
    /\ params !! "date_to" = Some (PyStr "2018-10-16")
    /\ iso_date_shape "2017-12-20" = true
    /\ iso_date_shape "2018-10-16" = true.
Proof.
  destruct (query_params_spec sample_world default_symbol None None
              default_previous_days default_sort)
    as (params & start' & end' & Hrun & Hend & _ & Hstart & _ & Hdom
        & Hsym & Hsort & Hfrom & Hto & _ & Hs & He & _).
  { intros _. unfold in_range. vm_compute. intuition discriminate. }
  exists params. split; [exact Hrun|]. split; [exact Hdom|].
  split; [exact Hsym|]. split; [exact Hsort|].
  destruct (Hstart eq_refl) as [Hord _]. rewrite (Hend eq_refl) in *.
  assert (date_format start' = "2017-12-20") as Efrom.
  { unfold date_format, strftime. rewrite Hord. reflexivity. }
  assert (date_format (today sample_world) = "2018-10-16") as Eto by reflexivity.
  split; [by rewrite Hfrom, Efrom|]. split; [by rewrite Hto, Eto|].
  split.
  - rewrite <- Efrom. apply Hs. unfold year_of. rewrite Hord. vm_compute.
    discriminate.
  - rewrite <- Eto. apply He. vm_compute. discriminate.
Defined.

(** A start date in the year 1 is written without leading zeros: the
    date_from entry is not of the shape YYYY-MM-DD. *)
Lemma early_year_not_padded :
  exists params,
    get_wtd_query_params sample_world default_symbol (Some (of_ymd 1 1 1))
      (Some (of_ymd 2018 10 16)) default_previous_days default_sort
    = Ok params
    /\ params !! "date_from" = Some (PyStr "1-01-01")
    /\ iso_date_shape "1-01-01" = false.
Proof. eexists. split; [reflexivity|]. split; reflexivity. Qed.

(** C9 with no variable set at all: the call returns and the entry is
    [None]. *)
Lemma api_token_unset :
  exists params,
    get_wtd_query_params sample_world default_symbol None None
      default_previous_days default_sort = Ok params
    /\ params !! "api_token" = Some PyNone.
Proof.
  destruct (api_token_from_environment ∅ (today sample_world) default_symbol
              None None default_previous_days default_sort)
    as (params & Hrun & _ & Hnone).
  { intros _. unfold in_range. vm_compute. intuition discriminate. }
  exists params. split; [exact Hrun | by apply Hnone].
Defined.

(** C10: the builder never compares the two dates.  With both dates given
    it returns whatever their order; a start date after the end date, or a
    negative [previous_days], gives a map whose date_from is later than its
    date_to. *)
Theorem no_date_order_validation :
  (forall w symbol s e previous_days sort,
     exists params,
       get_wtd_query_params w symbol (Some s) (Some e) previous_days sort
       = Ok params)
  /\ (exists params,
        get_wtd_query_params sample_world default_symbol
          (Some (of_ymd 2018 10 17)) (Some (of_ymd 2018 10 16))
          default_previous_days default_sort = Ok params
        /\ (ordinal (of_ymd 2018 10 16) < ordinal (of_ymd 2018 10 17))%Z
        /\ params !! "date_from" = Some (PyStr "2018-10-17")
        /\ params !! "date_to" = Some (PyStr "2018-10-16"))
  /\ (exists params,
        get_wtd_query_params sample_world default_symbol
          None (Some (of_ymd 2018 10 16)) (-1) default_sort = Ok params
        /\ params !! "date_from" = Some (PyStr "2018-10-17")
        /\ params !! "date_to" = Some (PyStr "2018-10-16"))
  /\ String.ltb "2018-10-16" "2018-10-17" = true.
Proof.
  split; [|split; [|split]].
  - intros w symbol s e previous_days sort. eexists.
    by apply get_wtd_query_params_ok.
  - eexists. split; [reflexivity|]. split; [vm_compute; reflexivity|].
    split; reflexivity.
  - eexists. split; [reflexivity|]. split; reflexivity.
  - reflexivity.
Qed.

(** * More on the calculator *)

Lemma wf_setcol df name c :
  wf_frame df -> length (cells c) = length (index df) ->
  wf_frame (setcol df name c).
Proof.
  unfold wf_frame, setcol; simpl. intros Hwf Hlen.
  induction (columns df) as [|[n c0] rest IH]; simpl.
  - by repeat constructor.
  - inversion_clear Hwf as [|? ? Hhd Htl].
    destruct (decide (n = name)); constructor; auto.
Qed.

Lemma wf_setitem df name s :
  wf_frame df -> length s = length (index df) -> wf_frame (setitem df name s).
Proof. intros Hwf Hlen. by apply wf_setcol. Qed.

Lemma assign_names name s cols :
  (assign name s cols).*1
  = if decide (name ∈ cols.*1) then cols.*1 else (cols.*1 ++ [name])%list.
Proof.
  induction cols as [|[n s0] rest IH].
  - destruct (decide (name ∈ ([] : list (string * Column)).*1)) as [Hin|_];
      [by apply elem_of_nil in Hin | done].
  - change (((n, s0) :: rest).*1) with (n :: rest.*1).
    change (assign name s ((n, s0) :: rest))
      with (if decide (n = name) then (n, s) :: rest
            else (n, s0) :: assign name s rest).
    destruct (decide (n = name)) as [->|Hne].
    + destruct (decide (name ∈ name :: rest.*1)) as [_|Hnin]; [done|].
      destruct Hnin. apply list_elem_of_here.
    + change (((n, s0) :: assign name s rest).*1)
        with (n :: (assign name s rest).*1).
      rewrite IH.
      destruct (decide (name ∈ rest.*1)) as [Hin|Hnin];
        destruct (decide (name ∈ n :: rest.*1)) as [Hin'|Hnin']; try done.
      * destruct Hnin'. by apply list_elem_of_further.
      * apply elem_of_cons in Hin' as [?|?]; congruence.
Qed.

Lemma atr_columns_inv df df' :
  atr_columns df = Ok df' ->
  exists high low close,
    getitem df "high" = Ok high
    /\ getitem df "low" = Ok low
    /\ getitem df "close" = Ok close
    /\ df' = with_derived df high low close.
Proof.
  intros Hrun.
  destruct (getcol df "high") as [ch|e1] eqn:Hh;
    destruct (getcol df "low") as [cl|e2] eqn:Hl;
    destruct (getcol df "close") as [cc|e3] eqn:Hc;
    try (unfold atr_columns in Hrun;
         repeat (rewrite ?getcol_setcol_ne, ?Hh, ?Hl, ?Hc in Hrun by done;
                 simpl in Hrun);
         done).
  assert (getitem df "high" = Ok (cells ch)) as Gh
    by (unfold getitem; by rewrite Hh).
  assert (getitem df "low" = Ok (cells cl)) as Gl
    by (unfold getitem; by rewrite Hl).
  assert (getitem df "close" = Ok (cells cc)) as Gc
    by (unfold getitem; by rewrite Hc).
  rewrite (atr_columns_unfold _ _ _ _ Gh Gl Gc) in Hrun.
  injection Hrun as <-. by exists (cells ch), (cells cl), (cells cc).
Qed.

Lemma getitem_Ok_iff df name :
  (exists s, getitem df name = Ok s) <-> name ∈ column_names df.
Proof.
  unfold getitem, getcol, column_names.
  induction (columns df) as [|[n c0] rest IH]; simpl.
  - split; [by intros [s H] | by intros H%elem_of_nil].
  - destruct (decide (n = name)) as [->|Hne].
    + split; [intros _; apply list_elem_of_here | by eexists].
    + rewrite IH. split; [by apply list_elem_of_further|].
      intros [?|?]%elem_of_cons; [congruence | done].
Qed.

Lemma getitem_Raise df name :
  name ∉ column_names df -> getitem df name = Raise (KeyError name).
Proof.
  intros Hname. destruct (getitem df name) as [s|e] eqn:E.
  - destruct Hname. apply getitem_Ok_iff. by exists s.
  - unfold getitem, getcol in E. by destruct (assoc name (columns df)).
Qed.

Lemma getcol_Raise df name :
  name ∉ column_names df -> getcol df name = Raise (KeyError name).
Proof.
  intros Hname. pose proof (getitem_Raise df name Hname) as E.
  unfold getitem in E. destruct (getcol df name) as [c|e]; simpl in E; [done|].
  by injection E as ->.
Qed.

(** TH-TL is high minus low at every row, the first one included, and it is
    missing exactly where the high or the low is.  Between two int64
    columns the difference is the int64 one: it wraps around, and is the
    true difference whenever that fits an int64.  In every other case it is
    the float64 difference. *)
Theorem th_tl_is_high_minus_low (df : Frame) (high low close : Series) :
  wf_frame df ->
  getitem df "high" = Ok high ->
  getitem df "low" = Ok low ->
  getitem df "close" = Ok close ->
  exists df' thtl,
    atr_columns df = Ok df'
    /\ getitem df' "TH-TL" = Ok thtl
    /\ length thtl = length (index df)
    /\ (forall i, i < length (index df) ->
          (exists v, thtl !! i = Some (Some v))
          <-> exists h l, high !! i = Some (Some h) /\ low !! i = Some (Some l))
    /\ (spread_dtype df = float64 ->
        forall i h l,
          high !! i = Some (Some h) -> low !! i = Some (Some l) ->
          thtl !! i = Some (Some (h - l)%Q))
    /\ (spread_dtype df = int64 ->
        forall i h l,
          high !! i = Some (Some h) -> low !! i = Some (Some l) ->
          thtl !! i = Some (Some (inject_Z (wrap64 (Qfloor (h - l)))))
          /\ (fits_int64 (h - l) ->
              exists v, thtl !! i = Some (Some v) /\ (v == h - l)%Q)).
Proof.
  intros Hwf Hh Hl Hc.
  pose proof (getitem_length _ _ _ Hwf Hh) as Lh.
  pose proof (getitem_length _ _ _ Hwf Hl) as Ll.
  pose proof (th_tl_length (spread_dtype df) high low _ Lh Ll) as Llen.
  destruct (with_derived_getitem df high low close) as (Hthtl & _).
  exists (with_derived df high low close), (th_tl (spread_dtype df) high low).
  split; [by apply atr_columns_unfold|]. split; [done|]. split; [done|].
  assert (forall i, i < length (index df) ->
            th_tl (spread_dtype df) high low !! i
            = Some (match spread_dtype df with
                    | int64 => cell_wrap64 (cell_sub (at_row i high) (at_row i low))
                    | float64 => cell_sub (at_row i high) (at_row i low)
                    end)) as Hrow.
  { intros i Hi. rewrite lookup_at_row by lia. by rewrite at_row_th_tl. }
  split; [|split].
  - intros i Hi. rewrite Hrow by done.
    rewrite (lookup_at_row i high), (lookup_at_row i low) by lia.
    destruct (at_row i high) as [h|], (at_row i low) as [l|],
      (spread_dtype df); simpl; split;
      try (intros [v [=]]); try (intros (h' & l' & [=] & [=])); eauto.
  - intros Hty i h l Hhi Hli.
    assert (i < length high) by (by eapply lookup_lt_Some).
    rewrite Hrow, Hty by lia.
    by rewrite (at_row_Some _ _ _ Hhi), (at_row_Some _ _ _ Hli).
  - intros Hty i h l Hhi Hli.
    assert (i < length high) by (by eapply lookup_lt_Some).
    rewrite Hrow, Hty by lia.
    rewrite (at_row_Some _ _ _ Hhi), (at_row_Some _ _ _ Hli). simpl.
    split; [done|]. intros Hfit. by eexists.
Qed.

(** TL-YC is |low[i] - close[i-1]| for every row i >= 1 and missing at
    row 0. *)
Theorem tl_yc_is_low_minus_previous_close (df : Frame) (high low close : Series) :
  wf_frame df ->
  getitem df "high" = Ok high ->
  getitem df "low" = Ok low ->
  getitem df "close" = Ok close ->
  exists df' tlyc,
    atr_columns df = Ok df'
    /\ getitem df' "TL-YC" = Ok tlyc
    /\ length tlyc = length (index df)
    /\ (forall i, S i < length (index df) ->
          tlyc !! S i = Some (cell_abs (cell_sub (at_row (S i) low) (at_row i close))))
    /\ (forall i l c,
          low !! S i = Some (Some l) -> close !! i = Some (Some c) ->
          tlyc !! S i = Some (Some (Qabs (l - c))))
    /\ (index df <> [] -> tlyc !! 0 = Some None).
Proof.
  intros Hwf Hh Hl Hc.
  pose proof (getitem_length _ _ _ Hwf Hl) as Ll.
  pose proof (getitem_length _ _ _ Hwf Hc) as Lc.
  pose proof (tl_yc_length low close _ Ll Lc) as Llen.
  destruct (with_derived_getitem df high low close) as (_ & _ & Htlyc & _).
  exists (with_derived df high low close), (tl_yc low close).
  split; [by apply atr_columns_unfold|]. split; [done|]. split; [done|].
  assert (forall i, S i < length (index df) ->
            tl_yc low close !! S i
            = Some (cell_abs (cell_sub (at_row (S i) low) (at_row i close)))) as Hrow.
  { intros i Hi. rewrite lookup_at_row by lia. unfold tl_yc.
    by rewrite at_row_series_abs, at_row_series_sub, at_row_shift1_S by lia. }
  split; [done|]. split.
  - intros i l c Hli Hci.
    assert (S i < length low) by (by eapply lookup_lt_Some).
    rewrite Hrow by lia.
    by rewrite (at_row_Some _ _ _ Hli), (at_row_Some _ _ _ Hci).
  - intros Hne. rewrite lookup_at_row.
    + unfold tl_yc.
      rewrite at_row_series_abs, at_row_series_sub, at_row_shift1_0.
      by destruct (at_row 0 low).
    + destruct (index df); [done | simpl in *; lia].
Qed.

(** The calculator keeps the frame it is given: the same rows in the same
    order, every column that is not one of the five it writes untouched, and
    one cell per row in every column, the new ones included. *)
Theorem calculator_keeps_the_frame (df : Frame) (high low close : Series) :
  wf_frame df ->
  getitem df "high" = Ok high ->
  getitem df "low" = Ok low ->
  getitem df "close" = Ok close ->
  exists df',
    atr_columns df = Ok df'
    /\ index df' = index df
    /\ wf_frame df'
    /\ (forall name, name ∉ derived_names -> getitem df' name = getitem df name)
    /\ (forall name s, name ∈ derived_names -> getitem df' name = Ok s ->
          length s = length (index df)).
Proof.
  intros Hwf Hh Hl Hc.
  pose proof (getitem_length _ _ _ Hwf Hh) as Lh.
  pose proof (getitem_length _ _ _ Hwf Hl) as Ll.
  pose proof (getitem_length _ _ _ Hwf Hc) as Lc.
  assert (wf_frame (with_derived df high low close)) as Hwf'.
  { unfold with_derived.
    repeat apply wf_setitem; [apply wf_setcol; [done|] | | | |]; simpl.
    - by apply th_tl_length.
    - by apply th_yc_length.
    - by apply tl_yc_length.
    - apply true_range_length.
    - apply atr_sma_length. }
  destruct (with_derived_getitem df high low close) as (_ & _ & _ & _ & _ & Hkeep).
  exists (with_derived df high low close).
  split; [by apply atr_columns_unfold|]. split; [done|]. split; [done|].
  split; [done|]. intros name s _ Hs.
  by apply (getitem_length _ _ _ Hwf' Hs).
Qed.

(** The calculator reads the high column first and the low column next,
    before it computes anything: a frame without a high column gives
    KeyError('high'), a frame with a high but without a low column gives
    KeyError('low'), and a frame for which the calculator returns has the
    three columns high, low and close. *)
Theorem calculator_needs_high_low_close (df : Frame) :
  ("high" ∉ column_names df -> atr_columns df = Raise (KeyError "high"))
  /\ ("high" ∈ column_names df -> "low" ∉ column_names df ->
      atr_columns df = Raise (KeyError "low"))
  /\ (forall df', atr_columns df = Ok df' ->
        "high" ∈ column_names df /\ "low" ∈ column_names df
        /\ "close" ∈ column_names df).
Proof.
  split; [|split].
  - intros Hno. unfold atr_columns. by rewrite (getcol_Raise _ _ Hno).
  - intros [h Hh]%getitem_Ok_iff Hno. unfold atr_columns.
    apply getitem_getcol in Hh as (ch & Hh & _).
    by rewrite Hh, (getcol_Raise _ _ Hno).
  - intros df' Hrun.
    destruct (atr_columns_inv _ _ Hrun) as (h & l & c & Hh & Hl & Hc & _).
    repeat split; apply getitem_Ok_iff; eauto.
Qed.

Lemma cell_max_skipna_spec (a b : cell) :
  ((exists v, cell_max_skipna a b = Some v)
   <-> (exists x, a = Some x) \/ (exists y, b = Some y))
  /\ (forall v x, cell_max_skipna a b = Some v -> a = Some x -> (x <= v)%Q)
  /\ (forall v y, cell_max_skipna a b = Some v -> b = Some y -> (y <= v)%Q)
  /\ (forall v, cell_max_skipna a b = Some v -> a = Some v \/ b = Some v).
Proof.
  destruct a as [x|], b as [y|]; simpl.
  - split; [split; eauto|]. split; [|split].
    + intros v x' [= <-] [= <-]. apply Q.le_max_l.
    + intros v y' [= <-] [= <-]. apply Q.le_max_r.
    + intros v [= <-]. unfold Qmax, GenericMinMax.gmax.
      destruct (x ?= y)%Q; auto.
  - split; [split; eauto|]. split; [|split].
    + intros v x' [= <-] [= <-]. apply Qle_refl.
    + by intros v y' _ H.
    + intros v [= <-]. auto.
  - split; [split; eauto|]. split; [|split].
    + by intros v x' _ H.
    + intros v y' [= <-] [= <-]. apply Qle_refl.
    + intros v [= <-]. auto.
  - split; [|by repeat split].
    split; [by intros [v H] | by intros [[x H]|[y H]]].
Qed.

(** A True Range cell is defined as soon as one of TH-TL and TL-YC is; it
    is then one of the two and at least as large as each that is defined. *)
Theorem true_range_defined_iff_an_operand_is (df : Frame) (high low close : Series) :
  wf_frame df ->
  getitem df "high" = Ok high ->
  getitem df "low" = Ok low ->
  getitem df "close" = Ok close ->
  exists df' thtl tlyc tr,
    atr_columns df = Ok df'
    /\ getitem df' "TH-TL" = Ok thtl
    /\ getitem df' "TL-YC" = Ok tlyc
    /\ getitem df' "True Range" = Ok tr
    /\ forall i, i < length (index df) ->
         ((exists v, tr !! i = Some (Some v))
          <-> (exists a, thtl !! i = Some (Some a))
              \/ (exists b, tlyc !! i = Some (Some b)))
         /\ (forall v a, tr !! i = Some (Some v) -> thtl !! i = Some (Some a) ->
               (a <= v)%Q)
         /\ (forall v b, tr !! i = Some (Some v) -> tlyc !! i = Some (Some b) ->
               (b <= v)%Q)
         /\ (forall v, tr !! i = Some (Some v) ->
               thtl !! i = Some (Some v) \/ tlyc !! i = Some (Some v)).
Proof.
  intros Hwf Hh Hl Hc.
  pose proof (getitem_length _ _ _ Hwf Hh) as Lh.
  pose proof (getitem_length _ _ _ Hwf Hl) as Ll.
  pose proof (getitem_length _ _ _ Hwf Hc) as Lc.
  pose proof (th_tl_length (spread_dtype df) high low _ Lh Ll) as L1.
  pose proof (tl_yc_length low close _ Ll Lc) as L2.
  destruct (with_derived_getitem df high low close)
    as (Hthtl & _ & Htlyc & Htr & _).
  exists (with_derived df high low close),
    (th_tl (spread_dtype df) high low), (tl_yc low close),
    (true_range (spread_dtype df) (index df) high low close).
  split; [by apply atr_columns_unfold|]. do 3 (split; [done|]).
  intros i Hi.
  rewrite true_range_lookup by done.
  destruct (cell_max_skipna_spec (at_row i (th_tl (spread_dtype df) high low))
              (at_row i (tl_yc low close))) as (Hiff & Hl1 & Hl2 & Hone).
  split; [|split; [|split]].
  - split.
    + intros [v [= Hv]]. destruct Hiff as [Hiff _].
      destruct Hiff as [[a Ha]|[b Hb]]; [by eexists | |].
      * left. exists a. by apply lookup_cell_iff; [lia|].
      * right. exists b. by apply lookup_cell_iff; [lia|].
    + intros Hor. destruct Hiff as [_ Hiff]. destruct Hiff as [v Hv].
      * destruct Hor as [[a Ha]|[b Hb]]; [left|right]; eexists;
          apply lookup_cell_iff; try eassumption; lia.
      * exists v. by rewrite Hv.
  - intros v a [= Hv] Ha. apply (Hl1 v a Hv). by apply lookup_cell_iff; [lia|].
  - intros v b [= Hv] Hb. apply (Hl2 v b Hv). by apply lookup_cell_iff; [lia|].
  - intros v [= Hv]. destruct (Hone v Hv) as [Ha|Hb]; [left|right];
      apply lookup_cell_iff; (lia || done).
Qed.

Lemma window_values (s : Series) i (vals : list Q) k x :
  take 14 (drop (i - 13) s) = Some <$> vals ->
  vals !! k = Some x -> s !! (i - 13 + k) = Some (Some x).
Proof.
  intros Hw Hk.
  assert ((Some <$> vals) !! k = Some (Some x)) as E.
  { by rewrite list_lookup_fmap, Hk. }
  rewrite <- Hw in E. apply lookup_take_Some in E as [E _].
  by rewrite lookup_drop in E.
Qed.

Lemma foldl_Qplus_lower lo (vals : list Q) a :
  Forall (fun x => (lo <= x)%Q) vals ->
  (a + inject_Z (Z.of_nat (length vals)) * lo <= foldl Qplus a vals)%Q.
Proof.
  intros Hall. revert a. induction Hall as [|x vals Hx _ IH]; intros a.
  - change (foldl Qplus a []) with a.
    change (inject_Z (Z.of_nat (length (@nil Q)))) with 0%Q. lra.
  - change (foldl Qplus a (x :: vals)) with (foldl Qplus (a + x)%Q vals).
    eapply Qle_trans; [|apply IH].
    rewrite length_cons, Nat2Z.inj_succ, <- Z.add_1_r, inject_Z_plus.
    change (inject_Z 1) with 1%Q. lra.
Qed.

Lemma mean14_lower lo (vals : list Q) :
  length vals = 14 -> Forall (fun x => (lo <= x)%Q) vals -> (lo <= mean14 vals)%Q.
Proof.
  intros Hlen Hall. pose proof (foldl_Qplus_lower lo vals 0 Hall) as H.
  rewrite Hlen in H. change (inject_Z (Z.of_nat 14)) with (14 # 1) in H.
  unfold mean14. apply Qle_shift_div_l; [done | lra].
Qed.

(** With high and low defined at every row, True Range is defined at every
    row, the first one included, whatever the close column holds; ATR is
    then defined exactly from row 13 on, so a series of fewer than fourteen
    rows has no ATR value at all. *)
Theorem atr_from_row_13_on_complete_data (df : Frame) (high low close : Series) :
  wf_frame df ->
  getitem df "high" = Ok high ->
  getitem df "low" = Ok low ->
  getitem df "close" = Ok close ->
  Forall is_Some high ->
  Forall is_Some low ->
  exists df' tr atr,
    atr_columns df = Ok df'
    /\ getitem df' "True Range" = Ok tr
    /\ getitem df' "ATR (sma)" = Ok atr
    /\ (forall i, i < length (index df) -> exists v, tr !! i = Some (Some v))
    /\ (forall i, i < length (index df) ->
          (exists v, atr !! i = Some (Some v)) <-> 13 <= i)
    /\ (length (index df) < 14 -> forall i v, atr !! i <> Some (Some v)).
Proof.
  intros Hwf Hh Hl Hc Fh Fl.
  pose proof (getitem_length _ _ _ Hwf Hh) as Lh.
  pose proof (getitem_length _ _ _ Hwf Hl) as Ll.
  destruct (with_derived_getitem df high low close)
    as (_ & _ & _ & Htr & Hatr & _).
  set (tr := true_range (spread_dtype df) (index df) high low close) in *.
  assert (forall i, i < length (index df) -> exists v, tr !! i = Some (Some v)) as Hdefined.
  { intros i Hi. subst tr. rewrite true_range_lookup by done.
    rewrite at_row_th_tl.
    destruct (lookup_lt_is_Some_2 high i) as [ch Hch]; [lia|].
    destruct (lookup_lt_is_Some_2 low i) as [cl Hcl]; [lia|].
    rewrite Forall_lookup in Fh, Fl.
    destruct (Fh _ _ Hch) as [h ->]. destruct (Fl _ _ Hcl) as [l ->].
    rewrite (at_row_Some _ _ _ Hch), (at_row_Some _ _ _ Hcl).
    destruct (spread_dtype df), (at_row i (tl_yc low close)); simpl; eauto. }
  assert (forall i, i < length (index df) ->
            (exists v, atr_sma (spread_dtype df) (index df) high low close !! i
                       = Some (Some v))
            <-> 13 <= i) as Hatr_iff.
  { intros i Hi. unfold atr_sma. fold tr.
    destruct (rolling_mean_row tr i) as (Hdef & Hmean & _).
    { subst tr. rewrite true_range_length. lia. }
    split.
    - intros [v Hv]. by destruct (Hdef v Hv).
    - intros H13. destruct (window_defined tr i) as [vals Hvals]; [done | | |].
      + subst tr. rewrite true_range_length. lia.
      + intros j Hj. apply Hdefined. lia.
      + exists (mean14 vals). by apply Hmean. }
  exists (with_derived df high low close), tr,
    (atr_sma (spread_dtype df) (index df) high low close).
  split; [by apply atr_columns_unfold|]. do 4 (split; [done|]).
  intros Hshort i v Hv.
  assert (i < length (index df)) as Hi.
  { apply lookup_lt_Some in Hv. by rewrite atr_sma_length in Hv. }
  assert (13 <= i) by (apply Hatr_iff; eauto). lia.
Qed.

(** When high[i] >= low[i] holds at every row and the subtraction of line
    100 does not overflow (it can only between two int64 columns), no
    defined ATR value is negative. *)
Theorem atr_nonneg (df : Frame) (high low close : Series) :
  wf_frame df ->
  getitem df "high" = Ok high ->
  getitem df "low" = Ok low ->
  getitem df "close" = Ok close ->
  (forall i h l,
     high !! i = Some (Some h) -> low !! i = Some (Some l) -> (l <= h)%Q) ->
  (spread_dtype df = int64 ->
   forall i h l,
     high !! i = Some (Some h) -> low !! i = Some (Some l) ->
     fits_int64 (h - l)) ->
  exists df' atr,
    atr_columns df = Ok df'
    /\ getitem df' "ATR (sma)" = Ok atr
    /\ forall i v, atr !! i = Some (Some v) -> (0 <= v)%Q.
Proof.
  intros Hwf Hh Hl Hc Hhl Hfit.
  pose proof (getitem_length _ _ _ Hwf Hh) as Lh.
  pose proof (getitem_length _ _ _ Hwf Hl) as Ll.
  destruct (with_derived_getitem df high low close)
    as (_ & _ & _ & _ & Hatr & _).
  exists (with_derived df high low close),
    (atr_sma (spread_dtype df) (index df) high low close).
  split; [by apply atr_columns_unfold|]. split; [done|].
  intros i v Hv.
  assert (i < length (true_range (spread_dtype df) (index df) high low close))
    as Hi.
  { apply lookup_lt_Some in Hv.
    by rewrite atr_sma_length, <- (true_range_length (spread_dtype df) _ high low close) in Hv. }
  unfold atr_sma in Hv.
  destruct (rolling_mean_row _ i Hi) as (Hdef & _).
  destruct (Hdef v Hv) as (_ & vals & Hlen & Hw & ->).
  apply mean14_lower; [done|]. apply Forall_lookup. intros k x Hk.
  eapply true_range_cell_nonneg; [exact Lh | exact Ll | exact Hhl | exact Hfit |].
  by apply (window_values _ i vals k x).
Qed.

Lemma column_names_setcol df name c :
  column_names (setcol df name c)
  = if decide (name ∈ column_names df) then column_names df
    else (column_names df ++ [name])%list.
Proof. apply assign_names. Qed.

Lemma column_names_setcol_elem df name c other :
  other ∈ column_names (setcol df name c)
  <-> other ∈ column_names df \/ other = name.
Proof.
  rewrite column_names_setcol. destruct (decide (name ∈ column_names df)).
  - split; [auto | by intros [?| ->]].
  - rewrite elem_of_app, list_elem_of_singleton. done.
Qed.

Lemma column_names_setcol_NoDup df name c :
  NoDup (column_names df) -> NoDup (column_names (setcol df name c)).
Proof.
  intros Hnd. rewrite column_names_setcol.
  destruct (decide (name ∈ column_names df)) as [|Hnin]; [done|].
  apply NoDup_app. split; [done|]. split.
  - intros x Hx ->%list_elem_of_singleton. done.
  - apply NoDup_singleton.
Qed.

(** The columns of the calculator's frame, dtype and cells. *)
Lemma with_derived_getcol df high low close :
  let df' := with_derived df high low close in
  let ty := spread_dtype df in
  getcol df' "TH-TL" = Ok (mkColumn ty (th_tl ty high low))
  /\ getcol df' "TH-YC" = Ok (mkColumn float64 (th_yc high low))
  /\ getcol df' "TL-YC" = Ok (mkColumn float64 (tl_yc low close))
  /\ getcol df' "True Range"
     = Ok (mkColumn float64 (true_range ty (index df) high low close))
  /\ getcol df' "ATR (sma)"
     = Ok (mkColumn float64 (atr_sma ty (index df) high low close))
  /\ forall name, name ∉ derived_names -> getcol df' name = getcol df name.
Proof.
  unfold with_derived, setitem; simpl.
  repeat split;
    repeat first [ rewrite getcol_setcol_eq
                 | rewrite getcol_setcol_ne by done ];
    try done.
  intros name Hname. unfold derived_names in Hname.
  rewrite !not_elem_of_cons in Hname.
  destruct Hname as (H1 & H2 & H3 & H4 & H5 & _).
  by rewrite !getcol_setcol_ne by done.
Qed.

(** The calculator adds nothing but its five columns and never doubles a
    label: a column of one of the five names is overwritten in place, and a
    frame that has none of them gets the five appended at the end, in the
    order TH-TL, TH-YC, TL-YC, True Range, ATR (sma). *)
Theorem derived_columns_appended (df : Frame) (high low close : Series) :
  getitem df "high" = Ok high ->
  getitem df "low" = Ok low ->
  getitem df "close" = Ok close ->
  exists df',
    atr_columns df = Ok df'
    /\ (forall name, name ∈ column_names df'
                     <-> name ∈ column_names df \/ name ∈ derived_names)
    /\ (NoDup (column_names df) -> NoDup (column_names df'))
    /\ ((forall name, name ∈ derived_names -> name ∉ column_names df) ->
        column_names df' = (column_names df ++ derived_names)%list).
Proof.
  intros Hh Hl Hc. exists (with_derived df high low close).
  split; [by apply atr_columns_unfold|]. unfold with_derived, setitem; simpl.
  split; [|split].
  - intros name. rewrite !column_names_setcol_elem. unfold derived_names.
    rewrite !elem_of_cons, elem_of_nil. tauto.
  - intros Hnd. by repeat apply column_names_setcol_NoDup.
  - intros Hfresh.
    assert (("TH-TL" ∉ column_names df) /\ ("TH-YC" ∉ column_names df)
            /\ ("TL-YC" ∉ column_names df) /\ ("True Range" ∉ column_names df)
            /\ ("ATR (sma)" ∉ column_names df)) as (F1 & F2 & F3 & F4 & F5).
    { unfold derived_names in Hfresh.
      repeat split; apply Hfresh; rewrite !elem_of_cons; tauto. }
    rewrite !column_names_setcol.
    rewrite (decide_False (P := "TH-TL" ∈ column_names df)) by done.
    rewrite (decide_False (P := "TH-YC" ∈ _)).
    2: { rewrite elem_of_app, list_elem_of_singleton. by intros [?|?]. }
    rewrite (decide_False (P := "TL-YC" ∈ _)).
    2: { rewrite !elem_of_app, !list_elem_of_singleton. by intros [[?|?]|?]. }
    rewrite (decide_False (P := "True Range" ∈ _)).
    2: { rewrite !elem_of_app, !list_elem_of_singleton. by intros [[[?|?]|?]|?]. }
    rewrite (decide_False (P := "ATR (sma)" ∈ _)).
    2: { rewrite !elem_of_app, !list_elem_of_singleton.
         by intros [[[[?|?]|?]|?]|?]. }
    unfold derived_names. by rewrite <- !app_assoc.
Qed.

(** Running the calculator on its own result changes nothing: the five
    columns are computed again from the same high, low and close and written
    over themselves. *)
Theorem calculator_idempotent (df df' : Frame) :
  atr_columns df = Ok df' -> atr_columns df' = Ok df'.
Proof.
  intros Hrun.
  destruct (atr_columns_inv _ _ Hrun) as (high & low & close & Hh & Hl & Hc & ->).
  destruct (with_derived_getitem df high low close)
    as (_ & _ & _ & _ & _ & Hkeep).
  destruct (with_derived_getcol df high low close)
    as (H1 & H2 & H3 & H4 & H5 & Hcol).
  set (df' := with_derived df high low close) in *.
  assert (index df' = index df) as Hidx by done.
  assert (forall name, name ∈ ["high"; "low"; "close"] -> name ∉ derived_names)
    as Hother.
  { intros name Hname. unfold derived_names.
    rewrite !elem_of_cons, elem_of_nil in Hname. rewrite !not_elem_of_cons.
    destruct Hname as [->|[->|[->|[]]]]; repeat split; try done;
      apply not_elem_of_nil. }
  assert (spread_dtype df' = spread_dtype df) as Hty.
  { unfold spread_dtype. rewrite !Hcol; [done | |];
      apply Hother; rewrite !elem_of_cons; tauto. }
  rewrite (atr_columns_unfold df' high low close).
  - f_equal. unfold with_derived at 1. cbv zeta. rewrite Hidx, Hty.
    unfold setitem.
    rewrite (setcol_same df' "TH-TL") by done.
    rewrite (setcol_same df' "TH-YC") by done.
    rewrite (setcol_same df' "TL-YC") by done.
    rewrite (setcol_same df' "True Range") by done.
    by rewrite (setcol_same df' "ATR (sma)") by done.
  - rewrite Hkeep; [done|]. apply Hother. rewrite !elem_of_cons; tauto.
  - rewrite Hkeep; [done|]. apply Hother. rewrite !elem_of_cons; tauto.
  - rewrite Hkeep; [done|]. apply Hother. rewrite !elem_of_cons; tauto.
Qed.

(** * More on loading *)

(** As written, [get_atr_dataframe] returns for no answer of the provider:
    once the [history] entry is found, its text goes to the constructor,
    which refuses a [str] whatever it holds. *)
Theorem get_atr_dataframe_never_returns (data : Json.value) :
  (forall df, get_atr_dataframe data <> Ok df)
  /\ (forall h, Json.getitem data "history" = Ok h ->
        get_atr_dataframe data
        = Raise (ValueError "DataFrame constructor not properly called!")).
Proof.
  split.
  - intros df. destruct (get_atr_dataframe_raises data) as [e ->]. done.
  - intros h Hh. unfold get_atr_dataframe. by rewrite Hh.
Qed.

(** * More on the parameter builder *)

(** The builder fails in one way only: with no start date given, when
    [previous_days] is too large for a timedelta or leads out of the years
    1 to 9999; the error is then an OverflowError.  In every other case it
    returns. *)
Theorem builder_fails_only_by_overflow (w : world) (symbol : string)
    (start_date end_date : option datetime) (previous_days : Z) (sort : string) :
  ((exists params,
      get_wtd_query_params w symbol start_date end_date previous_days sort
      = Ok params)
   <-> start_date <> None \/ in_range (end_of w end_date) previous_days)
  /\ (forall e,
        get_wtd_query_params w symbol start_date end_date previous_days sort
        = Raise e ->
        exn_kind e = "OverflowError" /\ start_date = None
        /\ ~ in_range (end_of w end_date) previous_days).
Proof.
  destruct start_date as [s|].
  - split.
    + split; [by left|]. intros _. eexists. by apply get_wtd_query_params_ok.
    + intros e He. by rewrite get_wtd_query_params_ok in He.
  - destruct (decide (-999999999 <= previous_days <= 999999999)%Z) as [Hd|Hd];
      [destruct (decide (1 <= ordinal (end_of w end_date) - previous_days
                         <= MAXORDINAL)%Z) as [Ho|Ho]|].
    + assert (in_range (end_of w end_date) previous_days) as Hin by done.
      split.
      * split; [by right|]. intros _. eexists.
        by apply get_wtd_query_params_ok.
      * intros e He. by rewrite get_wtd_query_params_ok in He.
    + assert (get_wtd_query_params w symbol None end_date previous_days sort
              = Raise (OverflowError "date value out of range")) as Hrun.
      { unfold get_wtd_query_params. fold (end_of w end_date). simpl.
        unfold timedelta. rewrite decide_True by done. simpl.
        unfold Datetime.sub. by rewrite decide_False by done. }
      rewrite Hrun. split.
      * split; [by intros [? ?] | intros [?|[_ ?]]; done].
      * intros e [= <-]. split; [done|]. split; [done|]. by intros [_ ?].
    + assert (get_wtd_query_params w symbol None end_date previous_days sort
              = Raise (OverflowError "days; must have magnitude <= 999999999"))
        as Hrun.
      { unfold get_wtd_query_params. simpl.
        unfold timedelta. by rewrite decide_False by done. }
      rewrite Hrun. split.
      * split; [by intros [? ?] | intros [?|[? _]]; done].
      * intros e [= <-]. split; [done|]. split; [done|]. by intros [? _].
Qed.

Lemma date_format_same_day a b : same_day a b -> date_format a = date_format b.
Proof. unfold same_day, date_format, strftime. by intros ->. Qed.

(** The map depends on the days only, not on the time of day: calls whose
    clock, start date and end date fall on the same days give the same
    result, be it a map or an error. *)
Theorem params_ignore_time_of_day (env : gmap string string)
    (now now' : datetime) (symbol : string)
    (start_date start_date' end_date end_date' : option datetime)
    (previous_days : Z) (sort : string) :
  same_day now now' ->
  option_Forall2 same_day start_date start_date' ->
  option_Forall2 same_day end_date end_date' ->
  get_wtd_query_params (mkWorld env now) symbol start_date end_date
    previous_days sort
  = get_wtd_query_params (mkWorld env now') symbol start_date' end_date'
      previous_days sort.
Proof.
  intros Hnow Hstart Hend.
  assert (same_day (end_of (mkWorld env now) end_date)
                   (end_of (mkWorld env now') end_date')) as Hend'.
  { destruct Hend; simpl; done. }
  unfold get_wtd_query_params.
  fold (end_of (mkWorld env now) end_date).
  fold (end_of (mkWorld env now') end_date').
  rewrite (date_format_same_day _ _ Hend').
  destruct Hstart as [s s' Hs|]; simpl.
  - by rewrite (date_format_same_day _ _ Hs).
  - destruct (timedelta previous_days) as [delta|e]; simpl; [|done].
    unfold Datetime.sub. unfold same_day in Hend'. rewrite Hend'.
    destruct (decide _); simpl; [|done].
    reflexivity.
Qed.

(** * The further properties on sample data *)

Lemma th_tl_on_sample :
  (exists df' thtl,
     atr_columns sample = Ok df'
     /\ getitem df' "TH-TL" = Ok thtl
     /\ thtl !! 0 = Some (Some ((7050 # 1) - (7000 # 1))%Q)
     /\ thtl !! 1 = Some (Some ((706208 # 100) - (699893 # 100))%Q))
  /\ (exists df' thtl,
        atr_columns wide = Ok df'
        /\ getitem df' "TH-TL" = Ok thtl
        /\ thtl !! 0 = Some (Some (inject_Z (- 2 ^ 63)))
        /\ thtl !! 1 = Some (Some (inject_Z 2))).
Proof.
  split.
  - destruct (th_tl_is_high_minus_low sample _ _ _
                wf_sample eq_refl eq_refl eq_refl)
      as (df' & thtl & Hrun & Hcol & _ & _ & Hrow & _).
    exists df', thtl. split; [exact Hrun|]. split; [exact Hcol|].
    split; apply Hrow; reflexivity.
  - destruct (th_tl_is_high_minus_low wide _ _ _
                wf_wide eq_refl eq_refl eq_refl)
      as (df' & thtl & Hrun & Hcol & _ & _ & _ & Hrow).
    exists df', thtl. split; [exact Hrun|]. split; [exact Hcol|]. split.
    + apply (Hrow eq_refl 0%nat (2 ^ 62 # 1) (- 2 ^ 62 # 1)); reflexivity.
    + apply (Hrow eq_refl 1%nat (3 # 1) (1 # 1)); reflexivity.
Defined.

Lemma tl_yc_on_sample :
  exists df' tlyc,
    atr_columns sample = Ok df'
    /\ getitem df' "TL-YC" = Ok tlyc
    /\ tlyc !! 0 = Some None
    /\ tlyc !! 1 = Some (Some (Qabs ((699893 # 100) - (7010 # 1)))).
Proof.
  destruct (tl_yc_is_low_minus_previous_close sample _ _ _
              wf_sample eq_refl eq_refl eq_refl)
    as (df' & tlyc & Hrun & Hcol & _ & _ & Hrow & H0).
  exists df', tlyc. split; [exact Hrun|]. split; [exact Hcol|]. split.
  - apply H0. discriminate.
  - apply (Hrow 0%nat); reflexivity.
Defined.

Lemma calculator_keeps_sample :
  exists df',
    atr_columns sample = Ok df'
    /\ index df' = ["2018-10-15"; "2018-10-16"]
    /\ wf_frame df'
    /\ getitem df' "open" = Ok [q 7000 1; q 702922 100]
    /\ getitem df' "volume" = Ok [q 0 1; q 0 1].
Proof.
  destruct (calculator_keeps_the_frame sample _ _ _
              wf_sample eq_refl eq_refl eq_refl)
    as (df' & Hrun & Hidx & Hwf & Hkeep & _).
  exists df'. split; [exact Hrun|]. split; [exact Hidx|]. split; [exact Hwf|].
  split; rewrite Hkeep; try reflexivity;
    unfold derived_names; rewrite !not_elem_of_cons;
    repeat split; try discriminate; apply not_elem_of_nil.
Defined.

Lemma calculator_without_columns :
  atr_columns (mkFrame [] []) = Raise (KeyError "high")
  /\ ~ (exists df', atr_columns no_close = Ok df').
Proof.
  split.
  - apply (proj1 (calculator_needs_high_low_close (mkFrame [] []))).
    apply not_elem_of_nil.
  - intros [df' Hrun].
    destruct (proj2 (proj2 (calculator_needs_high_low_close no_close)) df' Hrun)
      as (_ & _ & Hclose).
    unfold column_names in Hclose; simpl in Hclose.
    rewrite !elem_of_cons, elem_of_nil in Hclose.
    destruct Hclose as [?|[?|[]]]; discriminate.
Defined.

Lemma true_range_operands_on_sample :
  exists df' thtl tr,
    atr_columns sample = Ok df'
    /\ getitem df' "TH-TL" = Ok thtl
    /\ getitem df' "True Range" = Ok tr
    /\ (exists v, tr !! 0 = Some (Some v))
    /\ (forall v a, tr !! 1 = Some (Some v) -> thtl !! 1 = Some (Some a) ->
           (a <= v)%Q).
Proof.
  destruct (true_range_defined_iff_an_operand_is sample _ _ _
              wf_sample eq_refl eq_refl eq_refl)
    as (df' & thtl & tlyc & tr & Hrun & Hthtl & Htlyc & Htr & Hrows).
  exists df', thtl, tr. split; [exact Hrun|]. split; [exact Hthtl|].
  split; [exact Htr|]. split.
  - apply (Hrows 0%nat); [simpl; lia|]. left.
    vm_compute in Hrun. injection Hrun as <-.
    vm_compute in Hthtl. injection Hthtl as <-. eexists. reflexivity.
  - apply (Hrows 1%nat). simpl; lia.
Defined.

Lemma complete_rising : forall name s,
  name ∈ ["high"; "low"] -> getitem rising name = Ok s -> Forall is_Some s.
Proof.
  intros name s Hname Hs. rewrite !elem_of_cons, elem_of_nil in Hname.
  destruct Hname as [->|[->|[]]]; vm_compute in Hs; injection Hs as <-;
    repeat (constructor; [by eexists|]); constructor.
Qed.

Lemma atr_rows_on_rising :
  exists df' atr,
    atr_columns rising = Ok df'
    /\ getitem df' "ATR (sma)" = Ok atr
    /\ (forall i, i < 15 -> (exists v, atr !! i = Some (Some v)) <-> 13 <= i).
Proof.
  destruct (atr_from_row_13_on_complete_data rising _ _ _
              wf_rising eq_refl eq_refl eq_refl)
    as (df' & tr & atr & Hrun & _ & Hatr & _ & Hrows & _).
  - apply (complete_rising "high"); [rewrite !elem_of_cons; tauto | reflexivity].
  - apply (complete_rising "low"); [rewrite !elem_of_cons; tauto | reflexivity].
  - exists df', atr. split; [exact Hrun|]. split; [exact Hatr|]. exact Hrows.
Defined.

Lemma atr_nonneg_on_rising :
  exists df' atr,
    atr_columns rising = Ok df'
    /\ getitem df' "ATR (sma)" = Ok atr
    /\ forall i v, atr !! i = Some (Some v) -> (0 <= v)%Q.
Proof.
  apply (atr_nonneg rising _ _ _ wf_rising eq_refl eq_refl eq_refl).
  - intros i h l Hh Hl.
    do 15 (destruct i as [|i];
           [injection Hh as <-; injection Hl as <-; unfold Qle; simpl; lia|]).
    discriminate.
  - intros Hty. vm_compute in Hty. discriminate.
Defined.

Lemma derived_columns_on_sample :
  exists df',
    atr_columns sample = Ok df'
    /\ column_names df'
       = ["open"; "high"; "low"; "close"; "volume";
          "TH-TL"; "TH-YC"; "TL-YC"; "True Range"; "ATR (sma)"].
Proof.
  destruct (derived_columns_appended sample _ _ _ eq_refl eq_refl eq_refl)
    as (df' & Hrun & _ & _ & Happ).
  exists df'. split; [exact Hrun|]. apply Happ.
  intros name Hname. unfold derived_names in Hname.
  rewrite !elem_of_cons, elem_of_nil in Hname.
  unfold column_names; simpl. rewrite !not_elem_of_cons.
  destruct Hname as [->|[->|[->|[->|[->|[]]]]]];
    repeat split; try discriminate; apply not_elem_of_nil.
Defined.

Lemma calculator_twice_on_sample :
  exists df', atr_columns sample = Ok df' /\ atr_columns df' = Ok df'.
Proof.
  destruct (atr_columns sample) as [df'|e] eqn:Hrun; [|vm_compute in Hrun; discriminate].
  exists df'. split; [reflexivity|]. exact (calculator_idempotent sample df' Hrun).
Defined.

Lemma params_morning_and_evening :
  get_wtd_query_params sample_world default_symbol None None
    default_previous_days default_sort
  = get_wtd_query_params sample_world_evening default_symbol None None
      default_previous_days default_sort.
Proof.
  apply (params_ignore_time_of_day ∅ (today sample_world)
           (today sample_world_evening)).
  - reflexivity.
  - constructor.
  - constructor.
Defined.

Lemma sample_payload_is_refused :
  get_atr_dataframe (payload history_asc)
  = Raise (ValueError "DataFrame constructor not properly called!").
Proof.
  eapply (proj2 (get_atr_dataframe_never_returns (payload history_asc))).
  reflexivity.
Defined.

Lemma builder_overflow_before_year_one :
  (forall params,
     get_wtd_query_params sample_world default_symbol None (Some first_day)
       default_previous_days default_sort <> Ok params)
  /\ exists params,
       get_wtd_query_params sample_world default_symbol (Some first_day)
         (Some first_day) default_previous_days default_sort = Ok params.
Proof.
  split.
  - intros params Hrun.
    destruct (proj1 (proj1 (builder_fails_only_by_overflow sample_world
                default_symbol None (Some first_day) default_previous_days
                default_sort)) (ex_intro _ params Hrun)) as [Hs|[_ Hord]].
    + by apply Hs.
    + vm_compute in Hord. destruct Hord as [Hord _]. by apply Hord.
  - apply (proj1 (builder_fails_only_by_overflow sample_world default_symbol
                    (Some first_day) (Some first_day) default_previous_days
                    default_sort)).
    left. discriminate.
Defined.
